(** * Assignment Grader client (client.py): model and verified properties

    The client is a Streamlit script: a helper [call_api_tool] that posts a
    JSON payload to a tool server, and three tabs that drive it.  The script
    is embedded here as Rocq functions in a state-and-exception monad over a
    [world] that holds the Python heap of dict objects, [st.session_state],
    the log, the rendered UI messages and the HTTP requests sent.

    Python values are a JSON-shaped inductive type; dicts are
    insertion-ordered association lists with unique keys, as in CPython;
    dicts that are passed around and mutated live on the heap and are
    handled by reference. *)

From Stdlib Require Import ZArith QArith String Ascii List Lia.
From stdpp Require Import base strings gmap list pretty.

Local Open Scope string_scope.
Local Open Scope Z_scope.
Local Set Warnings "-register-all".

(** ** Python values *)

(** Integers are unbounded, finite floats are the rationals they denote
    (comparison of an int with a float is exact in Python); NaN and the
    infinities are outside the model.  A character is one element of the
    string. *)
Inductive value : Type :=
| VNone
| VBool (b : bool)
| VInt (z : Z)
| VFloat (q : Q)
| VStr (s : string)
| VList (l : list value)
| VDict (d : list (string * value)).

Abbreviation pydict := (list (string * value)).

Definition is_none (v : value) : bool :=
  match v with VNone => true | _ => false end.

(** [bool(v)]: the truth value of an object. *)
Definition py_truthy (v : value) : bool :=
  match v with
  | VNone => false
  | VBool b => b
  | VInt z => negb (z =? 0)
  | VFloat q => negb (Qeq_bool q 0)
  | VStr s => negb (String.eqb s "")
  | VList l => match l with [] => false | _ => true end
  | VDict d => match d with [] => false | _ => true end
  end.

(** ** Dicts: insertion-ordered, unique keys *)

Module Dict.

Fixpoint get (k : string) (d : pydict) : option value :=
  match d with
  | [] => None
  | (k', v) :: d' => if String.eqb k k' then Some v else get k d'
  end.

(** [d[k] = v]: replaces the value in place when the key exists, appends
    the key at the end otherwise. *)
Fixpoint set (k : string) (v : value) (d : pydict) : pydict :=
  match d with
  | [] => [(k, v)]
  | (k', v') :: d' =>
      if String.eqb k k' then (k, v) :: d' else (k', v') :: set k v d'
  end.

(** [k in d] *)
Definition mem (k : string) (d : pydict) : bool :=
  match get k d with Some _ => true | None => false end.

Definition keys (d : pydict) : list string := map fst d.

(** A dict literal [{k1: v1, ...}]: later duplicates overwrite. *)
Definition literal (kvs : list (string * value)) : pydict :=
  fold_left (fun d kv => set (fst kv) (snd kv) d) kvs [].

End Dict.

(** ** Strings: slices and formatting *)

(** [s[:n]] for [n >= 0] *)
Definition slice_to (n : nat) (s : string) : string :=
  string_of_list_ascii (take n (list_ascii_of_string s)).

(** [s[-n:]] for [n > 0]: the last [n] characters, the whole string when it
    is shorter. *)
Definition slice_last (n : nat) (s : string) : string :=
  let l := list_ascii_of_string s in
  string_of_list_ascii (drop (length l - n)%nat l).

(** [needle in haystack] on strings, as a test. *)
Fixpoint str_contains (needle haystack : string) : bool :=
  String.prefix needle haystack
  || match haystack with
     | EmptyString => false
     | String _ rest => str_contains needle rest
     end.

(** [needle in haystack] on strings. *)
Definition contains_str (haystack needle : string) : Prop :=
  exists pre post : string, haystack = pre +:+ needle +:+ post.

(** ** Exceptions *)

(** The exception classes the script can meet, each with its message or the
    name it is about.  [InvalidReference] is not a Python exception: it is
    the outcome of following a reference that names no object, which no
    Python program can do. *)
Inductive exn : Type :=
| UnboundLocalError (var : string)
| NameError (var : string)
| KeyError (key : string)
| TypeError (msg : string)
| AttributeError (msg : string)
| JSONDecodeError (msg : string)
| RequestException (msg : string)
| InvalidReference.

(** [str(e)] *)
Definition str_exn (e : exn) : string :=
  match e with
  | UnboundLocalError x =>
      "cannot access local variable '" +:+ x
      +:+ "' where it is not associated with a value"
  | NameError x => "name '" +:+ x +:+ "' is not defined"
  | KeyError k => "'" +:+ k +:+ "'"
  | TypeError m | AttributeError m | JSONDecodeError m
  | RequestException m => m
  | InvalidReference => "invalid reference"
  end.

(** ** The world the script runs in *)

Abbreviation loc := positive.

Record http_request : Type := mk_request {
  req_method : string;
  req_url : string;
  req_json : pydict;
  req_headers : list (string * string);
  req_timeout : Z
}.

Inductive http_reply : Type :=
| Response (status_code : Z) (text : string)
| TransportError (msg : string).

Inductive log_level : Type := INFO | ERROR.

Inductive ui_event : Type :=
| StHeader (s : string)
| StSubheader (s : string)
| StInfo (s : string)
| StSuccess (s : string)
| StWarning (s : string)
| StError (s : string)
| StMarkdown (v : value)
| StMetric (label : string) (v : value)
| StBalloons.

Record world : Type := mk_world {
  heap : gmap loc pydict;
  session_state : pydict;
  log : list (log_level * string);
  ui : list ui_event;
  wire : list http_request
}.

Definition with_heap (h : gmap loc pydict) (w : world) : world :=
  mk_world h (session_state w) (log w) (ui w) (wire w).
Definition with_session (s : pydict) (w : world) : world :=
  mk_world (heap w) s (log w) (ui w) (wire w).
Definition with_log (l : list (log_level * string)) (w : world) : world :=
  mk_world (heap w) (session_state w) l (ui w) (wire w).
Definition with_ui (u : list ui_event) (w : world) : world :=
  mk_world (heap w) (session_state w) (log w) u (wire w).
Definition with_wire (r : list http_request) (w : world) : world :=
  mk_world (heap w) (session_state w) (log w) (ui w) r.

(** ** What lies outside the script *)

(** The builtins and the network the script calls into: [repr] (used by
    f-strings for floats and containers), [json.dumps], [json.loads] (the
    error message when the text is not JSON) and the tool server together
    with the transport, as a function of the requests sent before and the
    request at hand. *)
Record Runtime : Type := mk_runtime {
  py_repr : value -> string;
  json_dumps : pydict -> string;
  json_loads : string -> string + value;
  net : list http_request -> http_request -> http_reply
}.

(** The three values read once from the process environment (lines 12-14);
    [os.environ.get(name, '')] always yields a string. *)
Record config : Type := mk_config {
  openai_api_key : string;
  google_api_key : string;
  search_engine_id : string
}.

(** ** The monad: state and exceptions *)

Inductive outcome (A : Type) : Type :=
| Ret (a : A)
| Raise (e : exn).
Arguments Ret {A} a.
Arguments Raise {A} e.

Definition M (A : Type) : Type := world -> outcome A * world.

Definition ret {A} (a : A) : M A := fun w => (Ret a, w).
Definition raise {A} (e : exn) : M A := fun w => (Raise e, w).
Definition bind {A B} (m : M A) (k : A -> M B) : M B :=
  fun w => match m w with
           | (Ret a, w') => k a w'
           | (Raise e, w') => (Raise e, w')
           end.

Declare Scope py_scope.
Delimit Scope py_scope with py.
Notation "x <- m ;; k" := (bind m (fun x => k))
  (at level 100, m at next level, right associativity) : py_scope.
Notation "m ;;; k" := (bind m (fun _ => k))
  (at level 100, right associativity) : py_scope.
Local Open Scope py_scope.

Definition get_world : M world := fun w => (Ret w, w).
Definition put_world (w' : world) : M unit := fun _ => (Ret tt, w').

(** *** Session state, heap and output primitives *)

(** [k in st.session_state] *)
Definition session_contains (k : string) : M bool :=
  fun w => (Ret (Dict.mem k (session_state w)), w).

(** [st.session_state[k]] *)
Definition session_getitem (k : string) : M value :=
  fun w => match Dict.get k (session_state w) with
           | Some v => (Ret v, w)
           | None => (Raise (KeyError k), w)
           end.

(** [st.session_state[k] = v] *)
Definition session_setitem (k : string) (v : value) : M unit :=
  fun w => (Ret tt, with_session (Dict.set k v (session_state w)) w).

Definition heap_read (l : loc) : M pydict :=
  fun w => match heap w !! l with
           | Some d => (Ret d, w)
           | None => (Raise InvalidReference, w)
           end.

(** A new dict object: a reference no live object has. *)
Definition dict_new (d : pydict) : M loc :=
  fun w => let l := fresh (dom (heap w)) in
           (Ret l, with_heap (<[l := d]> (heap w)) w).

(** [d.copy()]: a shallow copy, a new object with the same items. *)
Definition dict_copy (l : loc) : M loc :=
  d <- heap_read l ;; dict_new d.

(** [d[k] = v] on the object [l] *)
Definition dict_setitem (l : loc) (k : string) (v : value) : M unit :=
  d <- heap_read l ;;
  fun w => (Ret tt, with_heap (<[l := Dict.set k v d]> (heap w)) w).

(** [d[k]] *)
Definition dict_getitem (l : loc) (k : string) : M value :=
  d <- heap_read l ;;
  match Dict.get k d with
  | Some v => ret v
  | None => raise (KeyError k)
  end.

(** [k in d] *)
Definition dict_contains (l : loc) (k : string) : M bool :=
  d <- heap_read l ;; ret (Dict.mem k d).

Definition logger_info (msg : string) : M unit :=
  fun w => (Ret tt, with_log (log w ++ [(INFO, msg)]) w).
Definition logger_error (msg : string) : M unit :=
  fun w => (Ret tt, with_log (log w ++ [(ERROR, msg)]) w).

(** [st.error], [st.info], ...: one more message on the page. *)
Definition st_show (e : ui_event) : M unit :=
  fun w => (Ret tt, with_ui (ui w ++ [e]) w).

(** Reading a local variable of a function: a local that no assignment has
    bound yet raises [UnboundLocalError]. *)
Definition read_local (name : string) (binding : option value) : M value :=
  match binding with
  | Some v => ret v
  | None => raise (UnboundLocalError name)
  end.

(** Reading a module-level name. *)
Definition read_global {F : Type} (globals : gmap string F) (name : string)
  : M F :=
  match globals !! name with
  | Some f => ret f
  | None => raise (NameError name)
  end.

(** [v[:n]] and [v[-n:]] on the sequence types of the model. *)
Definition py_slice_to (n : nat) (v : value) : M value :=
  match v with
  | VStr s => ret (VStr (slice_to n s))
  | VList l => ret (VList (take n l))
  | _ => raise (TypeError "object is not subscriptable")
  end.

Definition py_slice_last (n : nat) (v : value) : M value :=
  match v with
  | VStr s => ret (VStr (slice_last n s))
  | VList l => ret (VList (drop (length l - n)%nat l))
  | _ => raise (TypeError "object is not subscriptable")
  end.

Definition is_Exception (e : exn) : bool :=
  match e with InvalidReference => false | _ => true end.

Definition is_JSONDecodeError (e : exn) : bool :=
  match e with JSONDecodeError _ => true | _ => false end.

(** [try: m except cls as e: h e] *)
Definition try_except {A} (cls : exn -> bool) (m : M A) (h : exn -> M A)
  : M A :=
  fun w => match m w with
           | (Ret a, w') => (Ret a, w')
           | (Raise e, w') => if cls e then h e w' else (Raise e, w')
           end.

(** ** call_api_tool (lines 26-72) *)

Section Script.

Context (rt : Runtime) (cfg : config).

(** [str(v)], as an f-string field formats it. *)
Definition py_str (v : value) : string :=
  match v with
  | VStr s => s
  | VNone => "None"
  | VBool true => "True"
  | VBool false => "False"
  | VInt z => pretty z
  | _ => py_repr rt v
  end.

(** [f"{key[:5]}...{key[-5:]}"] (lines 41 and 45) *)
Definition redact (key : value) : M string :=
  a <- py_slice_to 5 key ;;
  b <- py_slice_last 5 key ;;
  ret (py_str a +:+ "..." +:+ py_str b).

(** [requests.post(url, json=..., headers=..., timeout=...)]: the request
    is issued with the items the dict holds at that moment; a transport
    failure raises. *)
Definition requests_post (url : string) (json : loc)
    (headers : list (string * string)) (timeout : Z) : M (Z * string) :=
  body <- heap_read json ;;
  w <- get_world ;;
  let rq := mk_request "POST" url body headers timeout in
  put_world (with_wire (wire w ++ [rq]) w) ;;;
  match net rt (wire w) rq with
  | Response status_code text => ret (status_code, text)
  | TransportError msg => raise (RequestException msg)
  end.

(** [response.json()]; a body that is not JSON raises the decode error the
    inner [except] clause of line 65 names. *)
Definition response_json (text : string) : M value :=
  match json_loads rt text with
  | inr v => ret v
  | inl msg => raise (JSONDecodeError msg)
  end.

(** Lines 39-45: the copy for the log and its two redactions.  [key] is a
    local variable of [call_api_tool]: line 41 reads it before line 42
    binds it. *)
Definition redact_log (request_data : loc) : M loc :=
  log_data <- dict_copy request_data ;;
  let key : option value := None in
  has_openai <- dict_contains log_data "openai_api_key" ;;
  key <- (if has_openai : bool then
            k <- read_local "key" key ;;
            r <- redact k ;;
            dict_setitem log_data "openai_api_key" (VStr r) ;;;
            k' <- dict_getitem log_data "openai_api_key" ;;
            ret (Some k')
          else ret key) ;;
  has_google <- dict_contains log_data "google_api_key" ;;
  key <- (if has_google : bool then
            k <- dict_getitem log_data "google_api_key" ;;
            r <- redact k ;;
            dict_setitem log_data "google_api_key" (VStr r) ;;;
            ret (Some k)
          else ret key) ;;
  ret log_data.

(** Lines 49-72: the request and the normalisation of its outcome. *)
Definition post_and_decode (url : string) (request_data : loc) : M value :=
  try_except is_Exception
    (response <- requests_post url request_data
                   [("Context-Type", "application/json")] 60 ;;
     let '(status_code, text) := response in
     if negb (status_code =? 200) then
       let error_message :=
         "Error " +:+ pretty status_code +:+ " from server: " +:+ text in
       logger_error error_message ;;;
       st_show (StError error_message) ;;;
       ret VNone
     else
       try_except is_JSONDecodeError
         (response_json text)
         (fun _ => ret (VStr text)))
    (fun e =>
       let error_message := "Error conecting to server: " +:+ str_exn e in
       logger_error error_message ;;;
       st_show (StError error_message) ;;;
       ret VNone).

(** Lines 16-23: the start of every run of the script. *)
Definition module_init : M unit :=
  has_url <- session_contains "api_server_url" ;;
  (if negb has_url then
     session_setitem "api_server_url" (VStr "http://localhost:8088")
   else ret tt) ;;;
  session_setitem "openai_api_key" (VStr (openai_api_key cfg)) ;;;
  session_setitem "google_api_key" (VStr (google_api_key cfg)) ;;;
  session_setitem "search_engine_id" (VStr (search_engine_id cfg)).

Definition call_api_tool (tool_name : string) (data : loc) : M value :=
  base <- session_getitem "api_server_url" ;;
  let url := py_str base +:+ "/tools/" +:+ tool_name in
  request_data <- dict_copy data ;;
  dict_setitem request_data "openai_api_key" (VStr (openai_api_key cfg)) ;;;
  dict_setitem request_data "google_api_key" (VStr (google_api_key cfg)) ;;;
  dict_setitem request_data "search_engine_id"
    (VStr (search_engine_id cfg)) ;;;
  log_data <- redact_log request_data ;;
  logged <- heap_read log_data ;;
  logger_info ("Calling " +:+ tool_name +:+ " with data: "
               +:+ json_dumps rt logged) ;;;
  post_and_decode url request_data.

(** The functions the module defines: [call_api_tool] and no other. *)
Definition module_globals : gmap string (string -> loc -> M value) :=
  {[ "call_api_tool" := call_api_tool ]}.

(** ** The Grading tab (lines 129-188)

    [rubric], [check_plagirism_option] and [grade_button] are what the
    three widgets return in this run; [globals] resolves the names of the
    functions the tab calls. *)
Definition tab2 (globals : gmap string (string -> loc -> M value))
    (rubric : string) (check_plagirism_option grade_button : bool)
  : M unit :=
  st_show (StHeader "Grading Configuration") ;;;
  st_show (StSubheader "Grading Rubric") ;;;
  has_document <- session_contains "document_text" ;;
  if has_document && grade_button then
    session_setitem "rubric" (VStr rubric) ;;;
    (if check_plagirism_option then
       st_show (StInfo "Checking for plagiarism") ;;;
       call_mcp_tool <- read_global globals "call_mcp_tool" ;;
       text <- session_getitem "document_Text" ;;
       payload <- dict_new (Dict.literal [("text", text)]) ;;
       plagiarism_results <- call_mcp_tool "check_plagiarism" payload ;;
       session_setitem "plagiarism_results" plagiarism_results ;;;
       if is_none plagiarism_results then
         st_show
           (StWarning "Plagiarism check failed or returned no results.")
       else ret tt
     else ret tt) ;;;
    st_show (StInfo "Generating grade...") ;;;
    call_mcp_tool <- read_global globals "call_mcp_tool" ;;
    text <- session_getitem "document_text" ;;
    payload <- dict_new
                 (Dict.literal [("text", text); ("rubric", VStr rubric)]) ;;
    grade_results <- call_mcp_tool "grade_text" payload ;;
    session_setitem "grade_results" grade_results ;;;
    (if is_none grade_results then
       st_show (StWarning "Grade generation failed or returned no results.")
     else ret tt) ;;;
    st_show (StInfo "Generating feedback...") ;;;
    call_mcp_tool <- read_global globals "call_mcp_tool" ;;
    text <- session_getitem "document_text" ;;
    payload <- dict_new
                 (Dict.literal [("text", text); ("rubric", VStr rubric)]) ;;
    feedback <- call_mcp_tool "generate_feedback" payload ;;
    session_setitem "feedback" feedback ;;;
    (if is_none feedback then
       st_show
         (StWarning "Feedback generation failed or returned no results.")
     else ret tt) ;;;
    if negb (is_none grade_results) || negb (is_none feedback) then
      st_show (StSuccess "Grading completed!") ;;;
      st_show StBalloons
    else
      st_show
        (StError
           "Grading process encountered errors. Please check your server connection and API settings")
  else ret tt.

(** ** The Results tab (lines 191-241) *)

(** [v > n] for an int literal [n] *)
Definition py_gt (v : value) (n : Z) : M bool :=
  match v with
  | VInt z => ret (n <? z)
  | VFloat q => ret (negb (Qle_bool q (inject_Z n)))
  | VBool b => ret (n <? (if b then 1 else 0))
  | _ => raise (TypeError "'>' not supported between these instances")
  end.

(** Lines 226-231: the body of the loop over the similarity matches. *)
Definition show_similarity (url : string) (similarity : value) : M unit :=
  high <- py_gt similarity 70 ;;
  if high : bool then
    st_show (StWarning ("High similarity (" +:+ py_str similarity
                        +:+ "%): [" +:+ url +:+ "](" +:+ url +:+ ")"))
  else
    moderate <- py_gt similarity 40 ;;
    if moderate : bool then
      st_show (StInfo ("Moderate similarity (" +:+ py_str similarity
                       +:+ "%): [" +:+ url +:+ "](" +:+ url +:+ ")"))
    else
      st_show (StSuccess ("Low similarity (" +:+ py_str similarity
                          +:+ "%): [" +:+ url +:+ "](" +:+ url +:+ ")")).

(** [for url, similarity in items: ...] *)
Fixpoint show_similarities (items : pydict) : M unit :=
  match items with
  | [] => ret tt
  | (url, similarity) :: rest =>
      show_similarity url similarity ;;; show_similarities rest
  end.

(** ['error' in results] *)
Definition py_contains_key (k : string) (v : value) : M bool :=
  match v with
  | VDict d => ret (Dict.mem k d)
  | VStr s => ret (str_contains k s)
  | VList l =>
      ret (existsb (fun x => match x with
                             | VStr s => String.eqb s k
                             | _ => false
                             end) l)
  | _ => raise (TypeError "argument is not iterable")
  end.

(** [results['error']] *)
Definition py_getitem (v : value) (k : string) : M value :=
  match v with
  | VDict d => match Dict.get k d with
               | Some x => ret x
               | None => raise (KeyError k)
               end
  | VStr _ => raise (TypeError "string indices must be integers")
  | VList _ => raise (TypeError "list indices must be integers or slices")
  | _ => raise (TypeError "object is not subscriptable")
  end.

(** [results.items()] *)
Definition py_items (v : value) : M pydict :=
  match v with
  | VDict d => ret d
  | _ => raise (AttributeError "object has no attribute 'items'")
  end.

(** [v.get(k, default)] *)
Definition py_get (v : value) (k : string) (default : value) : M value :=
  match v with
  | VDict d => ret (match Dict.get k d with Some x => x | None => default end)
  | _ => raise (AttributeError "object has no attribute 'get'")
  end.

(** Lines 215-231 *)
Definition show_plagiarism : M unit :=
  present <- session_contains "plagiarism_results" ;;
  truthy <- (if present : bool then
               r <- session_getitem "plagiarism_results" ;;
               ret (py_truthy r)
             else ret false) ;;
  if truthy : bool then
    st_show (StSubheader "Plagiarism Check") ;;;
    results <- session_getitem "plagiarism_results" ;;
    if is_none results then
      st_show
        (StWarning
           "Plagiarism check results are not available. There might have been an error during the check.")
    else
      has_error <- py_contains_key "error" results ;;
      if has_error : bool then
        e <- py_getitem results "error" ;;
        st_show (StError ("Plagiarism check error: " +:+ py_str e))
      else
        st_show (StMarkdown (VStr "**Similarity matches found:**")) ;;;
        items <- py_items results ;;
        show_similarities items
  else ret tt.

Definition tab3 (export_button save_button : bool) : M unit :=
  st_show (StHeader "Grading Results") ;;;
  w <- get_world ;;
  if forallb (fun k => Dict.mem k (session_state w))
       ["file_name"; "grade_results"; "feedback"] then
    file_name <- session_getitem "file_name" ;;
    st_show (StSubheader ("Results for: " +:+ py_str file_name)) ;;;
    has_grade <- session_contains "grade_results" ;;
    (if has_grade : bool then
       grade_results <- session_getitem "grade_results" ;;
       if negb (is_none grade_results) then
         grade_results <- session_getitem "grade_results" ;;
         grade <- py_get grade_results "grade" (VStr "Not available") ;;
         st_show (StMetric "Grade" grade)
       else
         st_show
           (StWarning
              "Grade information is not available. There might have been an error during grading.") ;;;
         st_show (StMetric "Grade" (VStr "Not available"))
     else ret tt) ;;;
    has_feedback <- session_contains "feedback" ;;
    (if has_feedback : bool then
       feedback <- session_getitem "feedback" ;;
       if negb (is_none feedback) then
         st_show (StSubheader "Feedback") ;;;
         feedback <- session_getitem "feedback" ;;
         st_show (StMarkdown feedback)
       else
         st_show
           (StWarning
              "Feedback is not available.There might have been an error during generating feedback.")
     else ret tt) ;;;
    show_plagiarism ;;;
    st_show (StSubheader "Export Options") ;;;
    (if export_button then
       st_show (StInfo "PDF export functionaliry would go here")
     else ret tt) ;;;
    (if save_button then
       st_show (StInfo "Database save functionality would go here")
     else ret tt)
  else
    st_show
      (StInfo
         "No grading results available. Please upload and grade an assignment first.").

End Script.

(** ** Definitions the statements use *)

(** The payload with the three credential fields assigned, in the order of
    the three assignments. *)
Definition with_credentials (cfg : config) (P : pydict) : pydict :=
  Dict.set "search_engine_id" (VStr (search_engine_id cfg))
    (Dict.set "google_api_key" (VStr (google_api_key cfg))
       (Dict.set "openai_api_key" (VStr (openai_api_key cfg)) P)).

(** The request line 50 issues for a body. *)
Definition the_request (url : string) (body : pydict) : http_request :=
  mk_request "POST" url body [("Context-Type", "application/json")] 60.

(** The number a JSON similarity value denotes. *)
Definition numeric (v : value) : option Q :=
  match v with
  | VInt z => Some (inject_Z z)
  | VFloat q => Some q
  | _ => None
  end.

Definition similarity_text (rt : Runtime) (label : string) (url : string)
    (similarity : value) : string :=
  label +:+ " similarity (" +:+ py_str rt similarity
  +:+ "%): [" +:+ url +:+ "](" +:+ url +:+ ")".

(** The two outcomes lines 183-188 can show. *)
Definition verdict_events (grade_results feedback : value) : list ui_event :=
  if negb (is_none grade_results) || negb (is_none feedback) then
    [StSuccess "Grading completed!"; StBalloons]
  else
    [StError
       "Grading process encountered errors. Please check your server connection and API settings"].

(** ** Concrete inputs *)

(** A runtime whose server gives the same reply to every request and whose
    JSON parser accepts no text. *)
Definition demo_runtime (reply : http_reply) : Runtime :=
  mk_runtime (fun _ => "<repr>") (fun _ => "<json>")
    (fun _ => inl "Expecting value") (fun _ _ => reply).

(** A runtime whose server answers every request with status 200 and the
    body [null], and whose JSON parser reads that text as [None]. *)
Definition null_runtime : Runtime :=
  mk_runtime (fun _ => "<repr>") (fun _ => "<json>")
    (fun text => if String.eqb text "null" then inr VNone
                 else inl "Expecting value")
    (fun _ _ => Response 200 "null").

Definition demo_config : config :=
  mk_config "sk-0123456789abcdef" "AIza0123456789" "cx42".

(** A session after [module_init], with one dict [P] on the heap. *)
Definition demo_world (P : pydict) : world :=
  mk_world {[ 1%positive := P ]}
    [("api_server_url", VStr "http://localhost:8088");
     ("openai_api_key", VStr "sk-0123456789abcdef");
     ("google_api_key", VStr "AIza0123456789");
     ("search_engine_id", VStr "cx42")]
    [] [] [].

(** A session after a document was processed. *)
Definition graded_session : world :=
  with_session
    (Dict.set "document_text" (VStr "essay") (session_state (demo_world [])))
    (demo_world []).

(** A session that holds a grade, a feedback text and one match of 85 per
    cent. *)
Definition results_session : world :=
  mk_world ∅
    [("api_server_url", VStr "http://localhost:8088");
     ("file_name", VStr "essay.pdf");
     ("grade_results", VDict [("grade", VStr "B+")]);
     ("feedback", VStr "Good work");
     ("plagiarism_results", VDict [("siteA.com", VInt 85)])]
    [] [] [].

(** A stand-in for the helper the tabs call: the request block of lines
    49-72 on the tool's URL. *)
Definition request_only (rt : Runtime) (tool_name : string) (data : loc)
  : M value :=
  post_and_decode rt ("http://localhost:8088/tools/" +:+ tool_name) data.

(** A computation that does nothing but add messages to the page, each of
    them with the property [P]. *)
Definition shows {A : Type} (P : ui_event -> Prop) (m : M A) : Prop :=
  forall w : world,
    exists events : list ui_event,
      snd (m w) = with_ui (ui w ++ events) w /\ Forall P events.

(** The warning of line 220. *)
Definition no_results_warning : ui_event :=
  StWarning
    "Plagiarism check results are not available. There might have been an error during the check.".

(** ** The Upload tab (lines 95-127) *)

(** The files on disk: path to content. *)
Abbreviation files := (gmap string string).

(** What [st.file_uploader] returns for a chosen file: its name and its
    bytes. *)
Record uploaded : Type := mk_uploaded {
  up_name : string;
  up_value : string
}.

(** The two library functions the tab uses on paths: [os.path.splitext],
    and the path [tempfile.NamedTemporaryFile] picks for a suffix given the
    files that exist. *)
Record Platform : Type := mk_platform {
  splitext : string -> string * string;
  temp_path : files -> string -> string
}.

(** [len(result.split)] on line 118: [result.split] is a bound method, and
    a method has no length. *)
Definition len_of_split_method : M Z :=
  raise (TypeError
           "object of type 'builtin_function_or_method' has no len()").

(** [st.join] on line 127: the [streamlit] module has no such attribute. *)
Definition st_join : M unit :=
  raise (AttributeError "module 'streamlit' has no attribute 'join'").

(** [isinstance(v, str)] *)
Definition is_str (v : value) : bool :=
  match v with VStr _ => true | _ => false end.

(** The tab, as the files after it and what it does to the session and the
    page.  The temporary file is written and closed (and kept:
    [delete=False]) before anything else happens to it; no later line
    touches the disk.  [uploaded_file] and [process_button] are what the
    two widgets return in this run.  Line 118 raises while its message is
    being formatted, so the preview of lines 120-121 never runs. *)
Definition tab1 (pf : Platform) (rt : Runtime)
    (globals : gmap string (string -> loc -> M value))
    (uploaded_file : option uploaded) (process_button : bool) (fs : files)
  : files * M unit :=
  match uploaded_file with
  | None => (fs, st_show (StHeader "Upload Assignment"))
  | Some up =>
      let file_path := temp_path pf fs (snd (splitext pf (up_name up))) in
      (<[file_path := up_value up]> fs,
       st_show (StHeader "Upload Assignment") ;;;
       session_setitem "file_path" (VStr file_path) ;;;
       session_setitem "file_name" (VStr (up_name up)) ;;;
       if process_button then
         call_mcp_tool <- read_global globals "call_mcp_tool" ;;
         payload <- dict_new (Dict.literal [("file_path", VStr file_path)]) ;;
         result <- call_mcp_tool "parse_file" payload ;;
         if is_none result then
           st_show
             (StError "Failed to process document. Check server connection")
         else if is_str result then
           session_setitem "document_text" result ;;;
           st_show (StSuccess "Document processed successfully!") ;;;
           words <- len_of_split_method ;;
           st_show (StInfo ("Document contains " +:+ pretty words
                            +:+ " words."))
         else
           session_setitem "document_text" (VStr (py_str rt result)) ;;;
           st_show (StSuccess "Document processed!") ;;;
           st_join
       else ret tt)
  end.

(** A platform for concrete runs: the extension is taken as [.pdf], the
    temporary path is a name no file has. *)
Definition demo_platform : Platform :=
  mk_platform (fun name => (name, ".pdf")) (fun fs _ => fresh (dom fs)).

(** A stand-in for the helper that returns a given value and does nothing
    else. *)
Definition returns (v : value) : string -> loc -> M value :=
  fun _ _ => ret v.

(** An uploaded file for concrete runs. *)
Definition demo_upload : uploaded := mk_uploaded "essay.pdf" "%PDF-1.7".

(** * Properties *)

(** ** Strings *)

Section StringFacts.

Lemma length_append (a b : string) :
  String.length (a +:+ b) = (String.length a + String.length b)%nat.
Proof. induction a as [|c a IH]; simpl; [reflexivity | now rewrite IH]. Qed.

Lemma length_string_of_list_ascii (l : list ascii) :
  String.length (string_of_list_ascii l) = length l.
Proof. induction l as [|c l IH]; simpl; congruence. Qed.

Lemma length_list_ascii_of_string (s : string) :
  length (list_ascii_of_string s) = String.length s.
Proof. induction s as [|c s IH]; simpl; congruence. Qed.

Lemma list_ascii_of_string_append (a b : string) :
  list_ascii_of_string (a +:+ b)
  = (list_ascii_of_string a ++ list_ascii_of_string b)%list.
Proof. induction a as [|c a IH]; simpl; [reflexivity | now rewrite IH]. Qed.

Lemma length_slice_to (n : nat) (s : string) :
  String.length (slice_to n s) = Nat.min n (String.length s).
Proof.
  unfold slice_to.
  now rewrite length_string_of_list_ascii, length_take,
    length_list_ascii_of_string.
Qed.

Lemma length_slice_last (n : nat) (s : string) :
  String.length (slice_last n s) = Nat.min n (String.length s).
Proof.
  unfold slice_last.
  rewrite length_string_of_list_ascii, length_drop,
    length_list_ascii_of_string.
  lia.
Qed.

(** The first [n] characters of a string that starts with [n]-character
    [a] are [a]. *)
Lemma slice_to_append (a rest : string) :
  slice_to (String.length a) (a +:+ rest) = a.
Proof.
  unfold slice_to.
  rewrite list_ascii_of_string_append, <- length_list_ascii_of_string.
  rewrite take_app_length.
  apply string_of_list_ascii_of_string.
Qed.

(** The last [n] characters of a string that ends with [n]-character [b]
    are [b]. *)
Lemma slice_last_append (front b : string) :
  slice_last (String.length b) (front +:+ b) = b.
Proof.
  unfold slice_last.
  rewrite list_ascii_of_string_append, length_app.
  rewrite <- (length_list_ascii_of_string b).
  replace (length (list_ascii_of_string front)
           + length (list_ascii_of_string b)
           - length (list_ascii_of_string b))%nat
    with (length (list_ascii_of_string front)) by lia.
  rewrite drop_app_length.
  apply string_of_list_ascii_of_string.
Qed.

Lemma slice_to_short (n : nat) (s : string) :
  (String.length s <= n)%nat -> slice_to n s = s.
Proof.
  intros H. unfold slice_to.
  rewrite take_ge by (rewrite length_list_ascii_of_string; lia).
  apply string_of_list_ascii_of_string.
Qed.

Lemma slice_last_short (n : nat) (s : string) :
  (String.length s <= n)%nat -> slice_last n s = s.
Proof.
  intros H. unfold slice_last.
  rewrite length_list_ascii_of_string.
  replace (String.length s - n)%nat with 0%nat by lia.
  rewrite drop_0.
  apply string_of_list_ascii_of_string.
Qed.

Lemma contains_str_length (haystack needle : string) :
  contains_str haystack needle ->
  (String.length needle <= String.length haystack)%nat.
Proof.
  intros (pre & post & ->). rewrite !length_append. lia.
Qed.

Lemma string_of_list_ascii_app (l1 l2 : list ascii) :
  string_of_list_ascii (l1 ++ l2)
  = string_of_list_ascii l1 +:+ string_of_list_ascii l2.
Proof.
  induction l1 as [|c l1 IH]; [reflexivity|].
  change (String c (string_of_list_ascii (l1 ++ l2))
          = String c (string_of_list_ascii l1 +:+ string_of_list_ascii l2)).
  now rewrite IH.
Qed.

(** A string of at least [2 * n] characters is its first [n] characters, a
    middle part and its last [n] characters. *)
Lemma string_ends (n : nat) (v : string) :
  (2 * n <= String.length v)%nat ->
  exists m : string,
    v = slice_to n v +:+ m +:+ slice_last n v
    /\ String.length (slice_to n v) = n
    /\ String.length (slice_last n v) = n.
Proof.
  intros Hlen.
  set (l := list_ascii_of_string v).
  assert (Hl : length l = String.length v)
    by apply length_list_ascii_of_string.
  exists (string_of_list_ascii (take (length l - 2 * n) (drop n l))).
  split; [|split].
  - unfold slice_to, slice_last. fold l.
    rewrite <- !string_of_list_ascii_app.
    rewrite <- (string_of_list_ascii_of_string v) at 1. fold l.
    f_equal.
    replace (length l - n)%nat with (n + (length l - 2 * n))%nat by lia.
    rewrite <- drop_drop, take_drop. now rewrite take_drop.
  - rewrite length_slice_to. lia.
  - rewrite length_slice_last. lia.
Qed.

End StringFacts.

(** ** Dicts *)

Module DictFacts.

Lemma get_set_eq (k : string) (v : value) (d : pydict) :
  Dict.get k (Dict.set k v d) = Some v.
Proof.
  induction d as [|[k' v'] d IH]; simpl.
  - now rewrite String.eqb_refl.
  - destruct (String.eqb k k') eqn:E; simpl.
    + now rewrite String.eqb_refl.
    + now rewrite E.
Qed.

Lemma get_set_ne (k k' : string) (v : value) (d : pydict) :
  k <> k' -> Dict.get k' (Dict.set k v d) = Dict.get k' d.
Proof.
  intros Hne. induction d as [|[k0 v0] d IH]; simpl.
  - apply not_eq_sym, String.eqb_neq in Hne. now rewrite Hne.
  - destruct (String.eqb k k0) eqn:E; simpl.
    + apply String.eqb_eq in E. subst k0.
      apply not_eq_sym, String.eqb_neq in Hne. now rewrite Hne.
    + now rewrite IH.
Qed.

Lemma get_set (k k' : string) (v : value) (d : pydict) :
  Dict.get k' (Dict.set k v d)
  = if String.eqb k k' then Some v else Dict.get k' d.
Proof.
  destruct (String.eqb_spec k k') as [->|Hne].
  - apply get_set_eq.
  - now apply get_set_ne.
Qed.

Lemma mem_set_eq (k : string) (v : value) (d : pydict) :
  Dict.mem k (Dict.set k v d) = true.
Proof. unfold Dict.mem. now rewrite get_set_eq. Qed.

Lemma mem_set_ne (k k' : string) (v : value) (d : pydict) :
  k <> k' -> Dict.mem k' (Dict.set k v d) = Dict.mem k' d.
Proof. intros H. unfold Dict.mem. now rewrite get_set_ne. Qed.

(** Assignment keeps the keys that were there, in their order, and adds
    the new key at the end. *)
Lemma keys_set (k : string) (v : value) (d : pydict) :
  Dict.keys (Dict.set k v d)
  = if Dict.mem k d then Dict.keys d else (Dict.keys d ++ [k])%list.
Proof.
  unfold Dict.keys, Dict.mem.
  induction d as [|[k0 v0] d IH]; simpl; [reflexivity|].
  destruct (String.eqb_spec k k0) as [->|Hne]; simpl; [reflexivity|].
  rewrite IH. now destruct (Dict.get k d).
Qed.

End DictFacts.

(** ** Running the monad *)

Section Run.

Context {A B : Type}.

Lemma bind_ret (m : M A) (k : A -> M B) (w w' : world) (a : A) :
  m w = (Ret a, w') -> bind m k w = k a w'.
Proof. intros H. unfold bind. now rewrite H. Qed.

Lemma bind_raise (m : M A) (k : A -> M B) (w w' : world) (e : exn) :
  m w = (Raise e, w') -> bind m k w = (Raise e, w').
Proof. intros H. unfold bind. now rewrite H. Qed.

(** A computation that returns went through both halves of a bind. *)
Lemma bind_inv (m : M A) (k : A -> M B) (w w' : world) (b : B) :
  bind m k w = (Ret b, w') ->
  exists a w1, m w = (Ret a, w1) /\ k a w1 = (Ret b, w').
Proof.
  unfold bind. destruct (m w) as [[a|e] w1]; intros H.
  - now exists a, w1.
  - discriminate.
Qed.

End Run.

Lemma heap_read_run (l : loc) (d : pydict) (w : world) :
  heap w !! l = Some d -> heap_read l w = (Ret d, w).
Proof. intros H. unfold heap_read. now rewrite H. Qed.

Lemma dict_copy_run (l : loc) (d : pydict) (w : world) :
  heap w !! l = Some d ->
  dict_copy l w
  = (Ret (fresh (dom (heap w))),
     with_heap (<[fresh (dom (heap w)) := d]> (heap w)) w).
Proof.
  intros H. unfold dict_copy.
  now rewrite (bind_ret _ _ _ _ _ (heap_read_run _ _ _ H)).
Qed.

Lemma dict_setitem_run (l : loc) (k : string) (v : value) (d : pydict)
    (w : world) :
  heap w !! l = Some d ->
  dict_setitem l k v w
  = (Ret tt, with_heap (<[l := Dict.set k v d]> (heap w)) w).
Proof.
  intros H. unfold dict_setitem.
  now rewrite (bind_ret _ _ _ _ _ (heap_read_run _ _ _ H)).
Qed.

Lemma dict_contains_run (l : loc) (k : string) (d : pydict) (w : world) :
  heap w !! l = Some d -> dict_contains l k w = (Ret (Dict.mem k d), w).
Proof.
  intros H. unfold dict_contains.
  now rewrite (bind_ret _ _ _ _ _ (heap_read_run _ _ _ H)).
Qed.

(** A new object is none of the live ones. *)
Lemma fresh_not_live (h : gmap loc pydict) (l : loc) :
  is_Some (h !! l) -> fresh (dom h) <> l.
Proof.
  intros Hl Heq. apply elem_of_dom in Hl. rewrite <- Heq in Hl.
  now apply is_fresh in Hl.
Qed.

(** ** The request body of lines 31-36 *)

Lemma with_credentials_get (cfg : config) (P : pydict) (k : string) :
  Dict.get k (with_credentials cfg P)
  = if String.eqb "search_engine_id" k then Some (VStr (search_engine_id cfg))
    else if String.eqb "google_api_key" k
         then Some (VStr (google_api_key cfg))
    else if String.eqb "openai_api_key" k
         then Some (VStr (openai_api_key cfg))
    else Dict.get k P.
Proof. unfold with_credentials. now rewrite !DictFacts.get_set. Qed.

Lemma with_credentials_has_openai (cfg : config) (P : pydict) :
  Dict.mem "openai_api_key" (with_credentials cfg P) = true.
Proof. unfold Dict.mem. now rewrite with_credentials_get. Qed.

(** ** call_api_tool: where every call ends *)

Section InvokerFacts.

Context (rt : Runtime) (cfg : config).

(** Lines 39-42 on a request body that holds [openai_api_key]: the copy is
    made, and the read of [key] on line 41 raises. *)
Lemma redact_log_unbound (request_data : loc) (d : pydict) (w : world) :
  heap w !! request_data = Some d ->
  Dict.mem "openai_api_key" d = true ->
  redact_log rt request_data w
  = (Raise (UnboundLocalError "key"),
     with_heap (<[fresh (dom (heap w)) := d]> (heap w)) w).
Proof.
  intros Hd Hmem. unfold redact_log.
  rewrite (bind_ret _ _ _ _ _ (dict_copy_run _ _ _ Hd)).
  set (w1 := with_heap _ w).
  assert (H1 : heap w1 !! fresh (dom (heap w)) = Some d)
    by (subst w1; simpl; apply lookup_insert_eq).
  rewrite (bind_ret _ _ _ _ _ (dict_contains_run _ _ _ _ H1)).
  rewrite Hmem. reflexivity.
Qed.

(** A call on a live payload, with the server address in the session
    state: the two copies are made and the call ends on line 41, before
    anything is logged or sent. *)
Lemma call_api_tool_run (tool_name : string) (data : loc) (P : pydict)
    (base : value) (w : world) :
  Dict.get "api_server_url" (session_state w) = Some base ->
  heap w !! data = Some P ->
  let l1 := fresh (dom (heap w)) in
  let h1 := <[l1 := with_credentials cfg P]> (heap w) in
  call_api_tool rt cfg tool_name data w
  = (Raise (UnboundLocalError "key"),
     with_heap (<[fresh (dom h1) := with_credentials cfg P]> h1) w).
Proof.
  intros Hs Hd l1 h1. unfold call_api_tool.
  assert (E0 : session_getitem "api_server_url" w = (Ret base, w))
    by (unfold session_getitem; now rewrite Hs).
  rewrite (bind_ret _ _ _ _ _ E0).
  rewrite (bind_ret _ _ _ _ _ (dict_copy_run _ _ _ Hd)).
  fold l1.
  set (w1 := with_heap (<[l1 := P]> (heap w)) w).
  assert (H1 : heap w1 !! l1 = Some P)
    by (subst w1; simpl; apply lookup_insert_eq).
  rewrite (bind_ret _ _ _ _ _ (dict_setitem_run _ _ _ _ _ H1)).
  set (w2 := with_heap _ w1).
  assert (H2 : heap w2 !! l1
               = Some (Dict.set "openai_api_key"
                         (VStr (openai_api_key cfg)) P))
    by (subst w2; simpl; apply lookup_insert_eq).
  rewrite (bind_ret _ _ _ _ _ (dict_setitem_run _ _ _ _ _ H2)).
  set (w3 := with_heap _ w2).
  assert (H3 : heap w3 !! l1
               = Some (Dict.set "google_api_key"
                         (VStr (google_api_key cfg))
                         (Dict.set "openai_api_key"
                            (VStr (openai_api_key cfg)) P)))
    by (subst w3; simpl; apply lookup_insert_eq).
  rewrite (bind_ret _ _ _ _ _ (dict_setitem_run _ _ _ _ _ H3)).
  set (w4 := with_heap _ w3).
  assert (H4 : heap w4 !! l1 = Some (with_credentials cfg P))
    by (subst w4; simpl; apply lookup_insert_eq).
  rewrite (bind_raise _ _ _ _ _
             (redact_log_unbound _ _ _ H4
                (with_credentials_has_openai cfg P))).
  assert (Hh : heap w4 = h1).
  { subst w4 w3 w2 w1 h1. simpl. now rewrite !insert_insert_eq. }
  rewrite Hh. reflexivity.
Qed.

(** Whatever the session state and the heap hold, a call ends in an
    exception. *)
Lemma call_api_tool_raises (tool_name : string) (data : loc) (w : world) :
  exists e, fst (call_api_tool rt cfg tool_name data w) = Raise e.
Proof.
  destruct (Dict.get "api_server_url" (session_state w)) as [base|] eqn:Hs.
  - destruct (heap w !! data) as [P|] eqn:Hd.
    + exists (UnboundLocalError "key").
      now rewrite (call_api_tool_run _ _ _ _ _ Hs Hd).
    + exists InvalidReference. unfold call_api_tool.
      assert (E0 : session_getitem "api_server_url" w = (Ret base, w))
        by (unfold session_getitem; now rewrite Hs).
      rewrite (bind_ret _ _ _ _ _ E0).
      unfold dict_copy, heap_read, bind. now rewrite Hd.
  - exists (KeyError "api_server_url"). unfold call_api_tool.
    unfold session_getitem, bind. now rewrite Hs.
Qed.

(** A call leaves the session state, the log, the page and the list of
    requests sent as they were. *)
Lemma call_api_tool_silent (tool_name : string) (data : loc) (w : world) :
  let w' := snd (call_api_tool rt cfg tool_name data w) in
  session_state w' = session_state w /\ log w' = log w
  /\ ui w' = ui w /\ wire w' = wire w.
Proof.
  destruct (Dict.get "api_server_url" (session_state w)) as [base|] eqn:Hs.
  - destruct (heap w !! data) as [P|] eqn:Hd.
    + now rewrite (call_api_tool_run _ _ _ _ _ Hs Hd).
    + unfold call_api_tool.
      assert (E0 : session_getitem "api_server_url" w = (Ret base, w))
        by (unfold session_getitem; now rewrite Hs).
      rewrite (bind_ret _ _ _ _ _ E0).
      unfold dict_copy, heap_read, bind. now rewrite Hd.
  - unfold call_api_tool, session_getitem, bind. now rewrite Hs.
Qed.

End InvokerFacts.

(** ** Lines 49-72 on their own

    What the request block does once control reaches it with a live request
    body.  [call_api_tool] never gets that far (see above); these lemmas
    describe the block, not the function. *)

Section RequestBlock.

Context (rt : Runtime).

Lemma requests_post_run (url : string) (l : loc) (body : pydict)
    (w : world) :
  heap w !! l = Some body ->
  requests_post rt url l [("Context-Type", "application/json")] 60 w
  = (match net rt (wire w) (the_request url body) with
     | Response c t => Ret (c, t)
     | TransportError m => Raise (RequestException m)
     end,
     with_wire (wire w ++ [the_request url body]) w).
Proof.
  intros H. unfold requests_post.
  rewrite (bind_ret _ _ _ _ _ (heap_read_run _ _ _ H)).
  unfold bind, get_world, put_world, the_request.
  now destruct (net rt (wire w) _).
Qed.

(** Non-200: the message with the status and the body is logged at error
    level and shown, and the result is [None]. *)
Lemma post_and_decode_non200 (url : string) (l : loc) (body : pydict)
    (w : world) (c : Z) (t : string) :
  heap w !! l = Some body ->
  net rt (wire w) (the_request url body) = Response c t ->
  c <> 200 ->
  let msg := "Error " +:+ pretty c +:+ " from server: " +:+ t in
  post_and_decode rt url l w
  = (Ret VNone,
     mk_world (heap w) (session_state w) (log w ++ [(ERROR, msg)])
       (ui w ++ [StError msg]) (wire w ++ [the_request url body])).
Proof.
  intros H Hnet Hc msg. unfold post_and_decode, try_except.
  unfold bind at 1. rewrite (requests_post_run _ _ _ _ H), Hnet.
  apply Z.eqb_neq in Hc. rewrite Hc. reflexivity.
Qed.

(** 200 with a body that is not JSON: the text itself is the result. *)
Lemma post_and_decode_200_text (url : string) (l : loc) (body : pydict)
    (w : world) (t m : string) :
  heap w !! l = Some body ->
  net rt (wire w) (the_request url body) = Response 200 t ->
  json_loads rt t = inl m ->
  post_and_decode rt url l w
  = (Ret (VStr t), with_wire (wire w ++ [the_request url body]) w).
Proof.
  intros H Hnet Hj. unfold post_and_decode, try_except.
  unfold bind at 1. rewrite (requests_post_run _ _ _ _ H), Hnet.
  simpl. unfold response_json. now rewrite Hj.
Qed.

(** 200 with a JSON body: the parsed value is the result. *)
Lemma post_and_decode_200_json (url : string) (l : loc) (body : pydict)
    (w : world) (t : string) (v : value) :
  heap w !! l = Some body ->
  net rt (wire w) (the_request url body) = Response 200 t ->
  json_loads rt t = inr v ->
  post_and_decode rt url l w
  = (Ret v, with_wire (wire w ++ [the_request url body]) w).
Proof.
  intros H Hnet Hj. unfold post_and_decode, try_except.
  unfold bind at 1. rewrite (requests_post_run _ _ _ _ H), Hnet.
  simpl. unfold response_json. now rewrite Hj.
Qed.

(** Transport failure: logged, shown, [None]. *)
Lemma post_and_decode_transport (url : string) (l : loc) (body : pydict)
    (w : world) (m : string) :
  heap w !! l = Some body ->
  net rt (wire w) (the_request url body) = TransportError m ->
  let msg := "Error conecting to server: " +:+ m in
  post_and_decode rt url l w
  = (Ret VNone,
     mk_world (heap w) (session_state w) (log w ++ [(ERROR, msg)])
       (ui w ++ [StError msg]) (wire w ++ [the_request url body])).
Proof.
  intros H Hnet msg. unfold post_and_decode, try_except.
  unfold bind at 1. rewrite (requests_post_run _ _ _ _ H), Hnet.
  reflexivity.
Qed.

(** The block itself returns on every reply. *)
Lemma post_and_decode_returns (url : string) (l : loc) (body : pydict)
    (w : world) :
  heap w !! l = Some body ->
  exists v, fst (post_and_decode rt url l w) = Ret v.
Proof.
  intros H.
  destruct (net rt (wire w) (the_request url body)) as [c t|m] eqn:Hnet.
  - destruct (Z.eq_dec c 200) as [->|Hc].
    + destruct (json_loads rt t) as [msg|v] eqn:Hj.
      * exists (VStr t).
        now rewrite (post_and_decode_200_text _ _ _ _ _ _ H Hnet Hj).
      * exists v.
        now rewrite (post_and_decode_200_json _ _ _ _ _ _ H Hnet Hj).
    + exists VNone.
      now rewrite (post_and_decode_non200 _ _ _ _ _ _ H Hnet Hc).
  - exists VNone.
    now rewrite (post_and_decode_transport _ _ _ _ _ H Hnet).
Qed.

End RequestBlock.

(** ** The claims about call_api_tool *)

(** C1 (transmitted body = payload with the three credential fields
    overwritten), at the payload [{"text": "essay", "openai_api_key":
    "user-typed"}] for [grade_text]: the request body is built as the claim
    says (the second object on the heap), but the call ends in
    [UnboundLocalError] on line 41 and no body is transmitted. *)
Theorem call_api_tool_body_built_not_sent :
  let P := [("text", VStr "essay"); ("openai_api_key", VStr "user-typed")] in
  let run := call_api_tool (demo_runtime (Response 200 "{}")) demo_config
               "grade_text" 1%positive (demo_world P) in
  heap (snd run) !! 2%positive
  = Some [("text", VStr "essay");
          ("openai_api_key", VStr "sk-0123456789abcdef");
          ("google_api_key", VStr "AIza0123456789");
          ("search_engine_id", VStr "cx42")]
  /\ fst run = Raise (UnboundLocalError "key")
  /\ wire (snd run) = [].
Proof. vm_compute. repeat split; reflexivity. Qed.

(** C2 (the invoker never raises to its caller): every call raises to its
    caller, whatever the tool name, the payload, the server and the session,
    and neither logs nor displays a message. *)
Theorem call_api_tool_raises_to_caller (rt : Runtime) (cfg : config)
    (tool_name : string) (data : loc) (w : world) :
  let run := call_api_tool rt cfg tool_name data w in
  (exists e, fst run = Raise e)
  /\ log (snd run) = log w /\ ui (snd run) = ui w.
Proof.
  intros run. split.
  - apply call_api_tool_raises.
  - destruct (call_api_tool_silent rt cfg tool_name data w)
      as (_ & Hlog & Hui & _).
    split; assumption.
Qed.

(** C4 (JSON POST to [{base}/tools/{tool}] with a 60-second timeout and a
    content-type header), at the payload [{"file_path": "/tmp/a.pdf"}] for
    [parse_file]: the call ends in [UnboundLocalError] and no request is
    sent. *)
Theorem call_api_tool_sends_no_request :
  let P := [("file_path", VStr "/tmp/a.pdf")] in
  let run := call_api_tool (demo_runtime (Response 200 "{}")) demo_config
               "parse_file" 1%positive (demo_world P) in
  fst run = Raise (UnboundLocalError "key") /\ wire (snd run) = [].
Proof. vm_compute. split; reflexivity. Qed.

(** C5 (200 with a non-JSON body gives the raw text), with a server that
    answers 200 and the text [hello] to every request: the call does not
    return [hello], it ends in [UnboundLocalError]. *)
Theorem call_api_tool_200_text_not_returned :
  let rt := demo_runtime (Response 200 "hello") in
  let P := [("file_path", VStr "/tmp/a.pdf")] in
  let run := call_api_tool rt demo_config "parse_file" 1%positive
               (demo_world P) in
  json_loads rt "hello" = inl "Expecting value"
  /\ fst run = Raise (UnboundLocalError "key")
  /\ fst run <> Ret (VStr "hello").
Proof. vm_compute. repeat split; try reflexivity; discriminate. Qed.

(** C6 (non-200 gives [None] and an error log entry with the status and
    the body), with a server that answers 404 to every request: the call
    does not return [None], it ends in [UnboundLocalError], and nothing is
    logged or displayed. *)
Theorem call_api_tool_404_not_reported :
  let rt := demo_runtime (Response 404 "Not Found") in
  let P := [("text", VStr "essay")] in
  let run := call_api_tool rt demo_config "check_plagiarism" 1%positive
               (demo_world P) in
  fst run = Raise (UnboundLocalError "key")
  /\ fst run <> Ret VNone
  /\ log (snd run) = [] /\ ui (snd run) = [].
Proof. vm_compute. repeat split; try reflexivity; discriminate. Qed.

(** Every object that was live before a call holds the same items after
    it: the call writes only to the two copies it makes. *)
Lemma call_api_tool_heap_frame (rt : Runtime) (cfg : config)
    (tool_name : string) (data l : loc) (w : world) :
  is_Some (heap w !! l) ->
  heap (snd (call_api_tool rt cfg tool_name data w)) !! l = heap w !! l.
Proof.
  intros Hl.
  destruct (Dict.get "api_server_url" (session_state w)) as [base|] eqn:Hs.
  - destruct (heap w !! data) as [P|] eqn:Hd.
    + rewrite (call_api_tool_run _ _ _ _ _ _ _ Hs Hd). simpl.
      assert (Hl1 : fresh (dom (heap w)) <> l) by now apply fresh_not_live.
      rewrite lookup_insert_ne.
      * now rewrite lookup_insert_ne.
      * apply fresh_not_live. now rewrite lookup_insert_ne.
    + unfold call_api_tool.
      assert (E0 : session_getitem "api_server_url" w = (Ret base, w))
        by (unfold session_getitem; now rewrite Hs).
      rewrite (bind_ret _ _ _ _ _ E0).
      unfold dict_copy, heap_read, bind. now rewrite Hd.
  - unfold call_api_tool, session_getitem, bind. now rewrite Hs.
Qed.

(** C10: a call does not mutate the payload it is given: the dict the
    caller passed holds the same items, in the same order, after the call
    as before it. *)
Theorem call_api_tool_keeps_payload (rt : Runtime) (cfg : config)
    (tool_name : string) (data : loc) (P : pydict) (w : world) :
  heap w !! data = Some P ->
  heap (snd (call_api_tool rt cfg tool_name data w)) !! data = Some P.
Proof.
  intros Hd. rewrite call_api_tool_heap_frame; [exact Hd | now exists P].
Qed.

Lemma call_api_tool_keeps_payload_witness :
  heap (snd (call_api_tool (demo_runtime (Response 200 "{}")) demo_config
               "grade_text" 1%positive
               (demo_world [("text", VStr "essay");
                            ("openai_api_key", VStr "user-typed")])))
    !! 1%positive
  = Some [("text", VStr "essay"); ("openai_api_key", VStr "user-typed")].
Proof.
  apply (call_api_tool_keeps_payload (demo_runtime (Response 200 "{}"))
           demo_config "grade_text" 1%positive
           [("text", VStr "essay"); ("openai_api_key", VStr "user-typed")]).
  reflexivity.
Defined.

(** ** The redaction of lines 41 and 45 *)

Lemma append_assoc (a b c : string) : (a +:+ b) +:+ c = a +:+ (b +:+ c).
Proof.
  induction a as [|x a IH]; [reflexivity|].
  change (String x ((a +:+ b) +:+ c) = String x (a +:+ (b +:+ c))).
  now rewrite IH.
Qed.

Lemma redact_str (rt : Runtime) (v : string) (w : world) :
  redact rt (VStr v) w
  = (Ret (slice_to 5 v +:+ "..." +:+ slice_last 5 v), w).
Proof. reflexivity. Qed.

Lemma length_redacted (v : string) :
  String.length (slice_to 5 v +:+ "..." +:+ slice_last 5 v)
  = (2 * Nat.min 5 (String.length v) + 3)%nat.
Proof.
  rewrite !length_append, length_slice_to, length_slice_last. simpl. lia.
Qed.

(** The formula on its own can give the value back: the 13-character
    value [abcde...fghij] is at least 10 characters long and its redaction
    is the value itself. *)
Lemma redaction_contains_dotted_value :
  ~ (forall (rt : Runtime) (w : world) (v r : string),
       (10 <= String.length v)%nat ->
       fst (redact rt (VStr v) w) = Ret r ->
       r = slice_to 5 v +:+ "..." +:+ slice_last 5 v /\ ~ contains_str r v).
Proof.
  intros H.
  destruct (H (demo_runtime (Response 200 "")) (demo_world [])
              "abcde...fghij" "abcde...fghij") as [_ Hno].
  - simpl. lia.
  - reflexivity.
  - apply Hno. exists "", "". reflexivity.
Qed.

(** The formula on its own: [key[:5] + "..." + key[-5:]] is defined for
    every string and has no effect; a value of length at least 10 starts
    with five characters [a] and ends with five characters [b], and on any
    such value the redaction is [a + "..." + b]; it does not contain a
    value longer than 13 characters; on a value of at most 5 characters,
    the empty one included, it is the value, three dots and the value
    again. *)
Theorem redact_spec (rt : Runtime) (w : world) (v : string) :
  redact rt (VStr v) w
  = (Ret (slice_to 5 v +:+ "..." +:+ slice_last 5 v), w)
  /\ ((10 <= String.length v)%nat ->
      exists a m b : string,
        v = a +:+ m +:+ b
        /\ String.length a = 5%nat /\ String.length b = 5%nat
        /\ redact rt (VStr v) w = (Ret (a +:+ "..." +:+ b), w))
  /\ (forall a m b : string,
        v = a +:+ m +:+ b ->
        String.length a = 5%nat -> String.length b = 5%nat ->
        redact rt (VStr v) w = (Ret (a +:+ "..." +:+ b), w))
  /\ ((13 < String.length v)%nat ->
      forall r, fst (redact rt (VStr v) w) = Ret r -> ~ contains_str r v)
  /\ ((String.length v <= 5)%nat ->
      redact rt (VStr v) w = (Ret (v +:+ "..." +:+ v), w)).
Proof.
  split; [reflexivity|]. split; [|split; [|split]].
  - intros Hlen. destruct (string_ends 5 v) as (m & Hv & Ha & Hb); [lia|].
    exists (slice_to 5 v), m, (slice_last 5 v).
    repeat split; assumption || reflexivity.
  - intros a m b -> Ha Hb. rewrite redact_str.
    rewrite <- Ha at 1. rewrite slice_to_append.
    rewrite <- (append_assoc a m b). rewrite <- Hb at 1.
    now rewrite slice_last_append.
  - intros Hlen r Hr Hc. rewrite redact_str in Hr. simpl in Hr.
    injection Hr as <-.
    apply contains_str_length in Hc.
    rewrite length_redacted in Hc. lia.
  - intros Hlen. rewrite redact_str.
    rewrite slice_to_short, slice_last_short by lia. reflexivity.
Qed.

(** C3 (the logged form of a credential of 10 or more characters is its
    first five characters, three dots and its last five, and the logging
    step is defined for shorter and empty credentials), with credentials
    of 19 and 14 characters and with empty credentials: in both runs the
    call ends in [UnboundLocalError] on line 41, the first redaction, and
    no credential is logged in any form. *)
Theorem call_api_tool_logs_no_credential :
  let rt := demo_runtime (Response 200 "{}") in
  let P := [("text", VStr "essay")] in
  let long := call_api_tool rt demo_config "grade_text" 1%positive
                (demo_world P) in
  let short := call_api_tool rt (mk_config "" "" "") "grade_text"
                 1%positive (demo_world P) in
  (10 <= String.length (openai_api_key demo_config))%nat
  /\ (10 <= String.length (google_api_key demo_config))%nat
  /\ fst long = Raise (UnboundLocalError "key") /\ log (snd long) = []
  /\ fst short = Raise (UnboundLocalError "key") /\ log (snd short) = [].
Proof.
  cbv zeta. split; [simpl; lia|]. split; [simpl; lia|].
  vm_compute. repeat split; reflexivity.
Qed.

(** ** Similarity buckets (lines 226-231) *)

Lemma Qle_bool_inject_Z (a b : Z) :
  Qle_bool (inject_Z a) (inject_Z b) = (a <=? b).
Proof. unfold Qle_bool, inject_Z. simpl. now rewrite !Z.mul_1_r. Qed.

Lemma py_gt_numeric (v : value) (q : Q) (n : Z) (w : world) :
  numeric v = Some q ->
  py_gt v n w = (Ret (negb (Qle_bool q (inject_Z n))), w).
Proof.
  destruct v; simpl; try discriminate; intros [= <-].
  - now rewrite Qle_bool_inject_Z, Z.ltb_antisym.
  - reflexivity.
Qed.

Lemma Qle_bool_false (x y : Q) : (y < x)%Q -> Qle_bool x y = false.
Proof.
  intros H. destruct (Qle_bool x y) eqn:E; [|reflexivity].
  apply Qle_bool_iff in E. now apply Qlt_not_le in H.
Qed.

Lemma Qle_bool_true (x y : Q) : (x <= y)%Q -> Qle_bool x y = true.
Proof. apply Qle_bool_iff. Qed.

Section Buckets.

Context (rt : Runtime) (url : string) (w : world).

Lemma show_similarity_high (v : value) (q : Q) :
  numeric v = Some q -> (70 < q)%Q ->
  show_similarity rt url v w
  = (Ret tt,
     with_ui (ui w ++ [StWarning (similarity_text rt "High" url v)]) w).
Proof.
  intros Hv Hq. unfold show_similarity.
  rewrite (bind_ret _ _ _ _ _ (py_gt_numeric _ _ 70 w Hv)).
  now rewrite (Qle_bool_false q (inject_Z 70) Hq).
Qed.

Lemma show_similarity_moderate (v : value) (q : Q) :
  numeric v = Some q -> (40 < q)%Q -> (q <= 70)%Q ->
  show_similarity rt url v w
  = (Ret tt,
     with_ui (ui w ++ [StInfo (similarity_text rt "Moderate" url v)]) w).
Proof.
  intros Hv Hlo Hhi. unfold show_similarity.
  rewrite (bind_ret _ _ _ _ _ (py_gt_numeric _ _ 70 w Hv)).
  rewrite (Qle_bool_true q (inject_Z 70) Hhi). simpl.
  rewrite (bind_ret _ _ _ _ _ (py_gt_numeric _ _ 40 w Hv)).
  now rewrite (Qle_bool_false q (inject_Z 40) Hlo).
Qed.

Lemma show_similarity_low (v : value) (q : Q) :
  numeric v = Some q -> (q <= 40)%Q ->
  show_similarity rt url v w
  = (Ret tt,
     with_ui (ui w ++ [StSuccess (similarity_text rt "Low" url v)]) w).
Proof.
  intros Hv Hlo. unfold show_similarity.
  assert (Hhi : (q <= 70)%Q) by (eapply Qle_trans; [exact Hlo | easy]).
  rewrite (bind_ret _ _ _ _ _ (py_gt_numeric _ _ 70 w Hv)).
  rewrite (Qle_bool_true q (inject_Z 70) Hhi). simpl.
  rewrite (bind_ret _ _ _ _ _ (py_gt_numeric _ _ 40 w Hv)).
  now rewrite (Qle_bool_true q (inject_Z 40) Hlo).
Qed.

End Buckets.

(** C7: a similarity above 70 is shown as high (a warning), one above 40
    and at most 70 as moderate (an info message), one of at most 40 as low
    (a success message); 71 is high, 70 and 41 are moderate, 40 and 0 are
    low. *)
Theorem similarity_buckets (rt : Runtime) (url : string) (w : world) :
  (forall v q, numeric v = Some q -> (70 < q)%Q ->
     show_similarity rt url v w
     = (Ret tt,
        with_ui (ui w ++ [StWarning (similarity_text rt "High" url v)]) w))
  /\ (forall v q, numeric v = Some q -> (40 < q)%Q -> (q <= 70)%Q ->
        show_similarity rt url v w
        = (Ret tt,
           with_ui (ui w ++ [StInfo (similarity_text rt "Moderate" url v)])
             w))
  /\ (forall v q, numeric v = Some q -> (q <= 40)%Q ->
        show_similarity rt url v w
        = (Ret tt,
           with_ui (ui w ++ [StSuccess (similarity_text rt "Low" url v)]) w))
  /\ show_similarity rt url (VInt 71) w
     = (Ret tt,
        with_ui (ui w ++ [StWarning ("High similarity (71%): [" +:+ url
                                     +:+ "](" +:+ url +:+ ")")]) w)
  /\ show_similarity rt url (VInt 70) w
     = (Ret tt,
        with_ui (ui w ++ [StInfo ("Moderate similarity (70%): [" +:+ url
                                  +:+ "](" +:+ url +:+ ")")]) w)
  /\ show_similarity rt url (VInt 41) w
     = (Ret tt,
        with_ui (ui w ++ [StInfo ("Moderate similarity (41%): [" +:+ url
                                  +:+ "](" +:+ url +:+ ")")]) w)
  /\ show_similarity rt url (VInt 40) w
     = (Ret tt,
        with_ui (ui w ++ [StSuccess ("Low similarity (40%): [" +:+ url
                                     +:+ "](" +:+ url +:+ ")")]) w)
  /\ show_similarity rt url (VInt 0) w
     = (Ret tt,
        with_ui (ui w ++ [StSuccess ("Low similarity (0%): [" +:+ url
                                     +:+ "](" +:+ url +:+ ")")]) w).
Proof.
  split; [intros v q; apply show_similarity_high|].
  split; [intros v q; apply show_similarity_moderate|].
  split; [intros v q; apply show_similarity_low|].
  repeat split; reflexivity.
Qed.

(** The loop of lines 225-231 shows the matches in the order of the dict. *)
Lemma show_similarities_cons (rt : Runtime) (url : string)
    (similarity : value) (rest : pydict) (w : world) :
  show_similarities rt ((url, similarity) :: rest) w
  = bind (show_similarity rt url similarity)
      (fun _ => show_similarities rt rest) w.
Proof. reflexivity. Qed.

(** With a non-empty dict of matches without an [error] key under
    [plagiarism_results], lines 215-231 show the two headings and then each
    match. *)
Lemma show_plagiarism_matches (rt : Runtime) (d : pydict) (w : world) :
  Dict.get "plagiarism_results" (session_state w) = Some (VDict d) ->
  d <> [] ->
  Dict.mem "error" d = false ->
  show_plagiarism rt w
  = show_similarities rt d
      (with_ui (ui w ++ [StSubheader "Plagiarism Check";
                         StMarkdown (VStr "**Similarity matches found:**")])
         w).
Proof.
  intros Hget Hne Herr. unfold show_plagiarism.
  unfold bind at 1. unfold session_contains, Dict.mem. rewrite Hget.
  unfold bind at 1. unfold bind at 1. unfold session_getitem at 1.
  rewrite Hget. unfold ret at 1.
  assert (Ht : py_truthy (VDict d) = true) by (destruct d; [easy | reflexivity]).
  rewrite Ht.
  unfold bind at 1. unfold st_show at 1.
  unfold bind at 1. unfold session_getitem at 1. simpl session_state.
  rewrite Hget. simpl is_none. cbv iota.
  unfold bind at 1. unfold py_contains_key at 1. unfold ret at 1.
  rewrite Herr.
  unfold bind at 1. unfold st_show at 1.
  unfold bind at 1. unfold py_items, ret.
  unfold with_ui. simpl. now rewrite <- app_assoc.
Qed.

(** ** The Grading tab *)

Section Grading.

Context (rubric : string) (w : world).

Hypothesis has_document : Dict.mem "document_text" (session_state w) = true.

(** With the names the module defines, a confirmed grading ends on the
    first call: [call_mcp_tool] is not defined. *)
Lemma tab2_name_error (rt : Runtime) (cfg : config) (check : bool) :
  fst (tab2 (module_globals rt cfg) rubric check true w)
  = Raise (NameError "call_mcp_tool").
Proof.
  unfold tab2, bind, st_show, session_contains, session_setitem. simpl.
  rewrite has_document. simpl.
  assert (Hg : module_globals rt cfg !! "call_mcp_tool" = None)
    by (unfold module_globals; now apply lookup_singleton_ne).
  unfold read_global. rewrite Hg.
  destruct check; reflexivity.
Qed.

(** With the plagiarism check enabled and [call_mcp_tool] bound to any
    function, the tab ends on the read of [document_Text], a key the
    session does not hold, before the function is called. *)
Lemma tab2_key_error (globals : gmap string (string -> loc -> M value))
    (f : string -> loc -> M value) :
  globals !! "call_mcp_tool" = Some f ->
  Dict.get "document_Text" (session_state w) = None ->
  tab2 globals rubric true true w
  = (Raise (KeyError "document_Text"),
     mk_world (heap w)
       (Dict.set "rubric" (VStr rubric) (session_state w)) (log w)
       (ui w ++ [StHeader "Grading Configuration";
                 StSubheader "Grading Rubric";
                 StInfo "Checking for plagiarism"])
       (wire w)).
Proof.
  intros Hg Hk.
  unfold tab2, bind, st_show, session_contains, session_setitem. simpl.
  rewrite has_document. simpl.
  unfold read_global. rewrite Hg. unfold ret.
  unfold session_getitem. simpl.
  rewrite DictFacts.get_set_ne by discriminate. rewrite Hk.
  unfold with_ui. simpl. now rewrite <- !app_assoc.
Qed.

End Grading.

Lemma st_show_inv (e : ui_event) (w w' : world) (a : unit) :
  st_show e w = (Ret a, w') -> w' = with_ui (ui w ++ [e]) w.
Proof. unfold st_show. now intros [= _ <-]. Qed.

Ltac bind_skip H :=
  let E := fresh "E" in
  apply bind_inv in H as (? & ? & E & H); clear E.

(** Lines 162-188 under any binding of [call_mcp_tool]: a run of the tab
    that returns made the two calls through that binding, stored the
    feedback, and ends with the success outcome when one of the two results
    is not [None] and with the failure outcome when both are. *)
Lemma tab2_verdict (globals : gmap string (string -> loc -> M value))
    (rubric : string) (check : bool) (w w' : world) :
  Dict.mem "document_text" (session_state w) = true ->
  tab2 globals rubric check true w = (Ret tt, w') ->
  exists (f : string -> loc -> M value) (p1 p2 : loc)
         (w1 w1' w2 w2' : world) (grade_results feedback : value)
         (shown : list ui_event),
    globals !! "call_mcp_tool" = Some f
    /\ f "grade_text" p1 w1 = (Ret grade_results, w1')
    /\ f "generate_feedback" p2 w2 = (Ret feedback, w2')
    /\ Dict.get "feedback" (session_state w') = Some feedback
    /\ ui w' = (shown ++ verdict_events grade_results feedback)%list.
Proof.
  intros Hdoc H. unfold tab2 in H.
  apply bind_inv in H as (? & ? & E & H). apply st_show_inv in E. subst.
  apply bind_inv in H as (? & ? & E & H). apply st_show_inv in E. subst.
  apply bind_inv in H as (? & ? & E & H).
  unfold session_contains in E. simpl in E. rewrite Hdoc in E.
  injection E as <- <-. simpl andb in H. cbv iota in H.
  do 3 bind_skip H.
  apply bind_inv in H as (f & ? & E & H). unfold read_global in E.
  destruct (globals !! "call_mcp_tool") as [f0|] eqn:Hg; [|discriminate].
  injection E as <- <-.
  do 2 bind_skip H.
  apply bind_inv in H as (grade_results & wg' & Hgrade & H).
  do 3 bind_skip H.
  apply bind_inv in H as (f' & ? & E & H). unfold read_global in E.
  rewrite Hg in E. injection E as <- <-.
  do 2 bind_skip H.
  apply bind_inv in H as (feedback & wf' & Hfeed & H).
  apply bind_inv in H as (? & ? & E & H).
  unfold session_setitem in E. injection E as _ <-.
  apply bind_inv in H as (? & wv & E & H).
  assert (Hs : session_state wv
               = Dict.set "feedback" feedback (session_state wf')).
  { destruct (is_none feedback).
    - apply st_show_inv in E. now subst.
    - injection E as _ <-. reflexivity. }
  eexists f0, _, _, _, _, _, _, grade_results, feedback, (ui wv).
  split; [reflexivity|]. split; [exact Hgrade|]. split; [exact Hfeed|].
  unfold verdict_events.
  destruct (negb (is_none grade_results) || negb (is_none feedback)).
  - apply bind_inv in H as (? & ? & E' & H).
    apply st_show_inv in E'. apply st_show_inv in H. subst. simpl.
    rewrite Hs, DictFacts.get_set_eq. split; [reflexivity|].
    now rewrite <- app_assoc.
  - apply st_show_inv in H. subst. simpl.
    rewrite Hs, DictFacts.get_set_eq. split; reflexivity.
Qed.

Lemma verdict_events_success (grade_results feedback : value) :
  grade_results <> VNone \/ feedback <> VNone ->
  verdict_events grade_results feedback
  = [StSuccess "Grading completed!"; StBalloons].
Proof.
  unfold verdict_events.
  intros [H|H]; destruct grade_results, feedback; try reflexivity;
    now contradiction H.
Qed.

Lemma verdict_events_failure :
  verdict_events VNone VNone
  = [StError
       "Grading process encountered errors. Please check your server connection and API settings"].
Proof. reflexivity. Qed.

(** C8 (with the plagiarism check enabled, the confirmed grading calls
    [check_plagiarism] with the stored document text and stores the result
    under [plagiarism_results]), in a session that holds [document_text]:
    the tab ends in [NameError] for [call_mcp_tool]; with that name bound
    to [call_api_tool] it ends in [KeyError] for [document_Text]; in both
    runs no request is sent and [plagiarism_results] is not stored. *)
Theorem tab2_plagiarism_check_not_made :
  let rt := demo_runtime (Response 200 "{}") in
  let run1 := tab2 (module_globals rt demo_config) "rubric" true true
                graded_session in
  let run2 := tab2 {[ "call_mcp_tool" := call_api_tool rt demo_config ]}
                "rubric" true true graded_session in
  Dict.get "document_text" (session_state graded_session)
  = Some (VStr "essay")
  /\ fst run1 = Raise (NameError "call_mcp_tool")
  /\ fst run2 = Raise (KeyError "document_Text")
  /\ wire (snd run1) = [] /\ wire (snd run2) = []
  /\ Dict.get "plagiarism_results" (session_state (snd run1)) = None
  /\ Dict.get "plagiarism_results" (session_state (snd run2)) = None.
Proof. vm_compute. repeat split; reflexivity. Qed.

(** C9 (the grading declares success iff one of the two results is not
    [None], and failure otherwise), in a session that holds
    [document_text], with the plagiarism check disabled and a server that
    cannot be reached: the tab ends in [NameError] for [call_mcp_tool];
    with that name bound to [call_api_tool] it ends in
    [UnboundLocalError]; in both runs neither verdict is shown. *)
Theorem tab2_no_verdict :
  let rt := demo_runtime (TransportError "Connection refused") in
  let run1 := tab2 (module_globals rt demo_config) "rubric" false true
                graded_session in
  let run2 := tab2 {[ "call_mcp_tool" := call_api_tool rt demo_config ]}
                "rubric" false true graded_session in
  fst run1 = Raise (NameError "call_mcp_tool")
  /\ fst run2 = Raise (UnboundLocalError "key")
  /\ ui (snd run1) = [StHeader "Grading Configuration";
                      StSubheader "Grading Rubric";
                      StInfo "Generating grade..."]
  /\ ui (snd run2) = ui (snd run1).
Proof. vm_compute. repeat split; reflexivity. Qed.

(** ** The Results tab on a graded session *)

Example tab3_shows_grade_feedback_and_match :
  tab3 (demo_runtime (Response 200 "{}")) false false results_session
  = (Ret tt,
     with_ui
       [StHeader "Grading Results";
        StSubheader "Results for: essay.pdf";
        StMetric "Grade" (VStr "B+");
        StSubheader "Feedback";
        StMarkdown (VStr "Good work");
        StSubheader "Plagiarism Check";
        StMarkdown (VStr "**Similarity matches found:**");
        StWarning "High similarity (85%): [siteA.com](siteA.com)";
        StSubheader "Export Options"]
       results_session).
Proof. reflexivity. Qed.
(** * Further properties of the script *)

(** ** Start of a run (lines 16-23) *)

Lemma dict_set_same (k : string) (v : value) (d : pydict) :
  Dict.get k d = Some v -> Dict.set k v d = d.
Proof.
  induction d as [|[k0 v0] d IH]; simpl; [discriminate|].
  destruct (String.eqb_spec k k0) as [->|Hne].
  - now intros [= ->].
  - intros H. now rewrite IH.
Qed.

Lemma module_init_run (cfg : config) (w : world) :
  module_init cfg w
  = (Ret tt,
     with_session
       (Dict.set "search_engine_id" (VStr (search_engine_id cfg))
          (Dict.set "google_api_key" (VStr (google_api_key cfg))
             (Dict.set "openai_api_key" (VStr (openai_api_key cfg))
                (if Dict.mem "api_server_url" (session_state w)
                 then session_state w
                 else Dict.set "api_server_url"
                        (VStr "http://localhost:8088") (session_state w)))))
       w).
Proof.
  unfold module_init, bind, session_contains, session_setitem, ret.
  destruct (Dict.mem "api_server_url" (session_state w)); reflexivity.
Qed.

(** After the start of a run the three credential keys hold the values of
    the environment, whatever the session held under them; the server
    address is the one the session held, or the default when it held none;
    every other key holds what it held; nothing else changes. *)
Theorem module_init_session (cfg : config) (w : world) (k : string) :
  let run := module_init cfg w in
  fst run = Ret tt
  /\ Dict.get k (session_state (snd run))
     = (if String.eqb "search_engine_id" k
        then Some (VStr (search_engine_id cfg))
        else if String.eqb "google_api_key" k
        then Some (VStr (google_api_key cfg))
        else if String.eqb "openai_api_key" k
        then Some (VStr (openai_api_key cfg))
        else if String.eqb "api_server_url" k
        then Some (match Dict.get "api_server_url" (session_state w) with
                   | Some url => url
                   | None => VStr "http://localhost:8088"
                   end)
        else Dict.get k (session_state w))
  /\ heap (snd run) = heap w /\ log (snd run) = log w
  /\ ui (snd run) = ui w /\ wire (snd run) = wire w.
Proof.
  intros run. subst run. rewrite module_init_run.
  unfold with_session. cbn [fst snd session_state heap log ui wire].
  split; [reflexivity|]. split; [|repeat split].
  rewrite !DictFacts.get_set.
  destruct (String.eqb "search_engine_id" k); [reflexivity|].
  destruct (String.eqb "google_api_key" k); [reflexivity|].
  destruct (String.eqb "openai_api_key" k); [reflexivity|].
  unfold Dict.mem.
  destruct (Dict.get "api_server_url" (session_state w)) as [url|] eqn:Hurl.
  - destruct (String.eqb_spec "api_server_url" k) as [<-|]; [exact Hurl|].
    reflexivity.
  - rewrite DictFacts.get_set. now destruct (String.eqb "api_server_url" k).
Qed.

(** The script runs from the top on every interaction: a second start of a
    run leaves the session state as the first start left it. *)
Theorem module_init_again (cfg : config) (w : world) :
  module_init cfg (snd (module_init cfg w)) = module_init cfg w.
Proof.
  rewrite (module_init_run cfg w). cbn [snd].
  set (s1 := Dict.set "search_engine_id" _ _).
  rewrite module_init_run. unfold with_session at 2 3.
  cbn [session_state].
  assert (Hurl : Dict.mem "api_server_url" s1 = true).
  { subst s1. unfold Dict.mem.
    rewrite !DictFacts.get_set_ne by discriminate.
    destruct (Dict.get "api_server_url" (session_state w)) eqn:E.
    - now rewrite E.
    - now rewrite DictFacts.get_set_eq. }
  rewrite Hurl.
  assert (Ho : Dict.get "openai_api_key" s1
               = Some (VStr (openai_api_key cfg))).
  { subst s1. rewrite !DictFacts.get_set_ne by discriminate.
    apply DictFacts.get_set_eq. }
  rewrite (dict_set_same _ _ _ Ho).
  assert (Hg : Dict.get "google_api_key" s1
               = Some (VStr (google_api_key cfg))).
  { subst s1. rewrite DictFacts.get_set_ne by discriminate.
    apply DictFacts.get_set_eq. }
  rewrite (dict_set_same _ _ _ Hg).
  assert (Hs : Dict.get "search_engine_id" s1
               = Some (VStr (search_engine_id cfg)))
    by (subst s1; apply DictFacts.get_set_eq).
  rewrite (dict_set_same _ _ _ Hs).
  reflexivity.
Qed.

(** ** call_api_tool: its two exits *)

(** Without a server address in the session state the call ends on line 28
    with [KeyError], before any copy is made. *)
Theorem call_api_tool_without_server_url (rt : Runtime) (cfg : config)
    (tool_name : string) (data : loc) (w : world) :
  Dict.get "api_server_url" (session_state w) = None ->
  call_api_tool rt cfg tool_name data w
  = (Raise (KeyError "api_server_url"), w).
Proof.
  intros Hs. unfold call_api_tool, session_getitem, bind. now rewrite Hs.
Qed.

Lemma call_api_tool_without_server_url_witness :
  call_api_tool (demo_runtime (Response 200 "{}")) demo_config "grade_text"
    1%positive (with_session [] (demo_world []))
  = (Raise (KeyError "api_server_url"), with_session [] (demo_world [])).
Proof.
  apply (call_api_tool_without_server_url (demo_runtime (Response 200 "{}"))
           demo_config "grade_text" 1%positive
           (with_session [] (demo_world []))).
  reflexivity.
Defined.

(** With a server address and a live payload, the call ends on line 41 with
    [UnboundLocalError] for [key], and leaves two new dicts behind, the
    request body and its copy for the log: both hold the environment's
    values under the three credential keys, unredacted, and the payload's
    values under every other key. *)
Theorem call_api_tool_builds_then_fails (rt : Runtime) (cfg : config)
    (tool_name : string) (data : loc) (P : pydict) (base : value)
    (w : world) :
  Dict.get "api_server_url" (session_state w) = Some base ->
  heap w !! data = Some P ->
  let run := call_api_tool rt cfg tool_name data w in
  fst run = Raise (UnboundLocalError "key")
  /\ exists (request_data log_data : loc) (body : pydict),
       heap w !! request_data = None /\ heap w !! log_data = None
       /\ request_data <> log_data
       /\ heap (snd run) !! request_data = Some body
       /\ heap (snd run) !! log_data = Some body
       /\ forall k : string,
            Dict.get k body
            = (if String.eqb "search_engine_id" k
               then Some (VStr (search_engine_id cfg))
               else if String.eqb "google_api_key" k
               then Some (VStr (google_api_key cfg))
               else if String.eqb "openai_api_key" k
               then Some (VStr (openai_api_key cfg))
               else Dict.get k P).
Proof.
  intros Hs Hd run. subst run.
  rewrite (call_api_tool_run rt cfg tool_name data P base w Hs Hd).
  cbn [fst snd]. split; [reflexivity|].
  set (l1 := fresh (dom (heap w))).
  set (h1 := <[l1 := with_credentials cfg P]> (heap w)).
  set (l2 := fresh (dom h1)).
  assert (H1 : heap w !! l1 = None).
  { apply not_elem_of_dom. apply is_fresh. }
  assert (H2 : h1 !! l2 = None).
  { apply not_elem_of_dom. apply is_fresh. }
  assert (Hne : l1 <> l2).
  { intros E. rewrite <- E in H2. subst h1.
    rewrite lookup_insert_eq in H2. discriminate. }
  exists l1, l2, (with_credentials cfg P).
  split; [exact H1|]. split.
  { subst h1. rewrite lookup_insert_ne in H2 by exact Hne. exact H2. }
  split; [exact Hne|]. unfold with_heap. cbn [heap]. split.
  { rewrite lookup_insert_ne by (intros E; apply Hne; now symmetry).
    subst h1. apply lookup_insert_eq. }
  split; [apply lookup_insert_eq|].
  intros k. apply with_credentials_get.
Qed.

Lemma call_api_tool_builds_then_fails_witness :
  let run := call_api_tool (demo_runtime (Response 200 "{}")) demo_config
               "grade_text" 1%positive
               (demo_world [("text", VStr "essay")]) in
  fst run = Raise (UnboundLocalError "key")
  /\ exists (request_data log_data : loc) (body : pydict),
       heap (demo_world [("text", VStr "essay")]) !! request_data = None
       /\ heap (demo_world [("text", VStr "essay")]) !! log_data = None
       /\ request_data <> log_data
       /\ heap (snd run) !! request_data = Some body
       /\ heap (snd run) !! log_data = Some body
       /\ forall k : string,
            Dict.get k body
            = (if String.eqb "search_engine_id" k
               then Some (VStr (search_engine_id demo_config))
               else if String.eqb "google_api_key" k
               then Some (VStr (google_api_key demo_config))
               else if String.eqb "openai_api_key" k
               then Some (VStr (openai_api_key demo_config))
               else Dict.get k [("text", VStr "essay")]).
Proof.
  apply (call_api_tool_builds_then_fails (demo_runtime (Response 200 "{}"))
           demo_config "grade_text" 1%positive [("text", VStr "essay")]
           (VStr "http://localhost:8088")
           (demo_world [("text", VStr "essay")])); reflexivity.
Defined.

(** No call sends a request or writes to the session state. *)
Theorem call_api_tool_sends_nothing (rt : Runtime) (cfg : config)
    (tool_name : string) (data : loc) (w : world) :
  wire (snd (call_api_tool rt cfg tool_name data w)) = wire w
  /\ session_state (snd (call_api_tool rt cfg tool_name data w))
     = session_state w.
Proof.
  destruct (call_api_tool_silent rt cfg tool_name data w)
    as (Hs & _ & _ & Hw).
  split; assumption.
Qed.

(** ** The request block (lines 49-72) *)

Lemma append_nil_r (s : string) : s +:+ "" = s.
Proof.
  induction s as [|c s IH]; [reflexivity|].
  change (String c (s +:+ "") = String c s). now rewrite IH.
Qed.

Lemma contains_str_middle (a b c : string) :
  contains_str (a +:+ b +:+ c) b.
Proof. now exists a, c. Qed.

Lemma contains_str_end (a b : string) : contains_str (a +:+ b) b.
Proof. exists a, "". now rewrite append_nil_r. Qed.

(** The block never raises: on a live request body it returns a value and
    issues exactly one request, a POST to the URL with the items the body
    holds, the header [Context-Type: application/json] and a timeout of 60;
    it leaves the heap and the session state alone. *)
Theorem post_and_decode_one_request (rt : Runtime) (url : string) (l : loc)
    (body : pydict) (w : world) :
  heap w !! l = Some body ->
  let run := post_and_decode rt url l w in
  (exists v, fst run = Ret v)
  /\ wire (snd run)
     = (wire w ++ [mk_request "POST" url body
                     [("Context-Type", "application/json")] 60])%list
  /\ heap (snd run) = heap w
  /\ session_state (snd run) = session_state w.
Proof.
  intros H run. subst run.
  destruct (net rt (wire w) (the_request url body)) as [c t|m] eqn:Hnet.
  - destruct (Z.eq_dec c 200) as [->|Hc].
    + destruct (json_loads rt t) as [msg|v] eqn:Hj.
      * rewrite (post_and_decode_200_text _ _ _ _ _ _ _ H Hnet Hj).
        split; [now exists (VStr t) | repeat split].
      * rewrite (post_and_decode_200_json _ _ _ _ _ _ _ H Hnet Hj).
        split; [now exists v | repeat split].
    + rewrite (post_and_decode_non200 _ _ _ _ _ _ _ H Hnet Hc).
      split; [now exists VNone | repeat split].
  - rewrite (post_and_decode_transport _ _ _ _ _ _ H Hnet).
    split; [now exists VNone | repeat split].
Qed.

Lemma post_and_decode_one_request_witness :
  let w := demo_world [("text", VStr "essay")] in
  let run := post_and_decode (demo_runtime (Response 200 "hello"))
               "http://localhost:8088/tools/grade_text" 1%positive w in
  (exists v, fst run = Ret v)
  /\ wire (snd run)
     = (wire w ++ [mk_request "POST" "http://localhost:8088/tools/grade_text"
                     [("text", VStr "essay")]
                     [("Context-Type", "application/json")] 60])%list
  /\ heap (snd run) = heap w
  /\ session_state (snd run) = session_state w.
Proof.
  apply (post_and_decode_one_request (demo_runtime (Response 200 "hello"))
           "http://localhost:8088/tools/grade_text" 1%positive
           [("text", VStr "essay")] (demo_world [("text", VStr "essay")])).
  reflexivity.
Defined.

(** A reply with a status other than 200: the result is [None], and one
    message that contains the status code and the reply body is logged at
    error level and shown as an error. *)
Theorem post_and_decode_server_error (rt : Runtime) (url : string) (l : loc)
    (body : pydict) (w : world) (c : Z) (t : string) :
  heap w !! l = Some body ->
  net rt (wire w)
    (mk_request "POST" url body [("Context-Type", "application/json")] 60)
  = Response c t ->
  c <> 200 ->
  let run := post_and_decode rt url l w in
  fst run = Ret VNone
  /\ exists msg : string,
       log (snd run) = (log w ++ [(ERROR, msg)])%list
       /\ ui (snd run) = (ui w ++ [StError msg])%list
       /\ contains_str msg (pretty c) /\ contains_str msg t.
Proof.
  intros H Hnet Hc run. subst run.
  rewrite (post_and_decode_non200 rt url l body w c t H Hnet Hc).
  split; [reflexivity|].
  exists ("Error " +:+ pretty c +:+ " from server: " +:+ t).
  split; [reflexivity|]. split; [reflexivity|]. split.
  - apply contains_str_middle.
  - rewrite <- append_assoc. rewrite <- append_assoc.
    apply contains_str_end.
Qed.

Lemma post_and_decode_server_error_witness :
  let w := demo_world [("text", VStr "essay")] in
  let run := post_and_decode (demo_runtime (Response 404 "Not Found"))
               "http://localhost:8088/tools/grade_text" 1%positive w in
  fst run = Ret VNone
  /\ exists msg : string,
       log (snd run) = (log w ++ [(ERROR, msg)])%list
       /\ ui (snd run) = (ui w ++ [StError msg])%list
       /\ contains_str msg (pretty 404) /\ contains_str msg "Not Found".
Proof.
  apply (post_and_decode_server_error
           (demo_runtime (Response 404 "Not Found"))
           "http://localhost:8088/tools/grade_text" 1%positive
           [("text", VStr "essay")] (demo_world [("text", VStr "essay")])
           404 "Not Found"); [reflexivity | reflexivity | lia].
Defined.

(** A reply with status 200: the result is the parsed body when the body is
    JSON and the body text itself when it is not; nothing is logged or
    shown. *)
Theorem post_and_decode_ok (rt : Runtime) (url : string) (l : loc)
    (body : pydict) (w : world) (t : string) :
  heap w !! l = Some body ->
  net rt (wire w)
    (mk_request "POST" url body [("Context-Type", "application/json")] 60)
  = Response 200 t ->
  let run := post_and_decode rt url l w in
  fst run = Ret (match json_loads rt t with
                 | inr v => v
                 | inl _ => VStr t
                 end)
  /\ log (snd run) = log w /\ ui (snd run) = ui w.
Proof.
  intros H Hnet run. subst run.
  destruct (json_loads rt t) as [msg|v] eqn:Hj.
  - rewrite (post_and_decode_200_text rt url l body w t msg H Hnet Hj).
    repeat split.
  - rewrite (post_and_decode_200_json rt url l body w t v H Hnet Hj).
    repeat split.
Qed.

Lemma post_and_decode_ok_witness :
  let rt := demo_runtime (Response 200 "hello") in
  let w := demo_world [("text", VStr "essay")] in
  let run := post_and_decode rt "http://localhost:8088/tools/grade_text"
               1%positive w in
  fst run = Ret (match json_loads rt "hello" with
                 | inr v => v
                 | inl _ => VStr "hello"
                 end)
  /\ log (snd run) = log w /\ ui (snd run) = ui w.
Proof.
  apply (post_and_decode_ok (demo_runtime (Response 200 "hello"))
           "http://localhost:8088/tools/grade_text" 1%positive
           [("text", VStr "essay")] (demo_world [("text", VStr "essay")])
           "hello"); reflexivity.
Defined.

(** A transport failure: the result is [None], and the message
    [Error conecting to server: ] followed by the text of the exception is
    logged at error level and shown as an error. *)
Theorem post_and_decode_unreachable (rt : Runtime) (url : string) (l : loc)
    (body : pydict) (w : world) (m : string) :
  heap w !! l = Some body ->
  net rt (wire w)
    (mk_request "POST" url body [("Context-Type", "application/json")] 60)
  = TransportError m ->
  let run := post_and_decode rt url l w in
  fst run = Ret VNone
  /\ log (snd run)
     = (log w ++ [(ERROR, "Error conecting to server: " +:+ m)])%list
  /\ ui (snd run)
     = (ui w ++ [StError ("Error conecting to server: " +:+ m)])%list.
Proof.
  intros H Hnet run. subst run.
  rewrite (post_and_decode_transport rt url l body w m H Hnet).
  repeat split.
Qed.

Lemma post_and_decode_unreachable_witness :
  let w := demo_world [("text", VStr "essay")] in
  let run := post_and_decode
               (demo_runtime (TransportError "Connection refused"))
               "http://localhost:8088/tools/grade_text" 1%positive w in
  fst run = Ret VNone
  /\ log (snd run)
     = (log w ++ [(ERROR, "Error conecting to server: "
                          +:+ "Connection refused")])%list
  /\ ui (snd run)
     = (ui w ++ [StError ("Error conecting to server: "
                          +:+ "Connection refused")])%list.
Proof.
  apply (post_and_decode_unreachable
           (demo_runtime (TransportError "Connection refused"))
           "http://localhost:8088/tools/grade_text" 1%positive
           [("text", VStr "essay")] (demo_world [("text", VStr "essay")])
           "Connection refused"); reflexivity.
Defined.

Lemma app_one_neq {A : Type} (l : list A) (x : A) : (l ++ [x])%list <> l.
Proof.
  intros E. apply (f_equal (@length A)) in E.
  rewrite length_app in E. simpl in E. lia.
Qed.

(** [None] is also what a successful call yields: the block returns [None]
    without logging anything exactly when the reply has status 200 and a
    JSON body that parses to [None] (the text [null]). *)
Theorem post_and_decode_silent_none (rt : Runtime) (url : string) (l : loc)
    (body : pydict) (w : world) :
  heap w !! l = Some body ->
  let run := post_and_decode rt url l w in
  (fst run = Ret VNone /\ log (snd run) = log w)
  <-> exists t : string,
        net rt (wire w)
          (mk_request "POST" url body
             [("Context-Type", "application/json")] 60)
        = Response 200 t
        /\ json_loads rt t = inr VNone.
Proof.
  intros H run. subst run. fold (the_request url body).
  destruct (net rt (wire w) (the_request url body)) as [c t|m] eqn:Hnet.
  - destruct (Z.eq_dec c 200) as [->|Hc].
    + destruct (json_loads rt t) as [msg|v] eqn:Hj.
      * rewrite (post_and_decode_200_text rt url l body w t msg H Hnet Hj).
        split.
        -- intros [E _]. discriminate.
        -- intros (t' & [= <-] & Hj'). congruence.
      * rewrite (post_and_decode_200_json rt url l body w t v H Hnet Hj).
        split.
        -- intros [[= ->] _]. now exists t.
        -- intros (t' & [= <-] & Hj'). cbn [fst snd].
           split; [congruence | reflexivity].
    + rewrite (post_and_decode_non200 rt url l body w c t H Hnet Hc).
      split.
      * intros [_ E]. now apply app_one_neq in E.
      * intros (t' & [= -> <-] & _). now contradiction Hc.
  - rewrite (post_and_decode_transport rt url l body w m H Hnet).
    split.
    + intros [_ E]. now apply app_one_neq in E.
    + intros (t' & E & _). discriminate.
Qed.

Lemma post_and_decode_silent_none_witness :
  let w := demo_world [("text", VStr "essay")] in
  let run := post_and_decode null_runtime
               "http://localhost:8088/tools/grade_text" 1%positive w in
  (exists t : string,
      net null_runtime (wire w)
        (mk_request "POST" "http://localhost:8088/tools/grade_text"
           [("text", VStr "essay")]
           [("Context-Type", "application/json")] 60)
      = Response 200 t
      /\ json_loads null_runtime t = inr VNone)
  /\ fst run = Ret VNone /\ log (snd run) = log w.
Proof.
  assert (H : exists t : string,
             net null_runtime (wire (demo_world [("text", VStr "essay")]))
               (mk_request "POST" "http://localhost:8088/tools/grade_text"
                  [("text", VStr "essay")]
                  [("Context-Type", "application/json")] 60)
             = Response 200 t
             /\ json_loads null_runtime t = inr VNone)
    by (exists "null"; split; reflexivity).
  split; [exact H|].
  exact (proj2 (post_and_decode_silent_none null_runtime
                  "http://localhost:8088/tools/grade_text" 1%positive
                  [("text", VStr "essay")]
                  (demo_world [("text", VStr "essay")]) eq_refl) H).
Defined.

(** ** The copy for the log (lines 39-45) *)

(** On a request body without [openai_api_key] whose [google_api_key] is a
    string, the block returns a new dict in which [google_api_key] holds
    the first five characters, three dots and the last five characters of
    that string and every other key holds what the body holds; the body
    itself keeps its items. *)
Theorem redact_log_google (rt : Runtime) (request_data : loc) (d : pydict)
    (g : string) (w : world) :
  heap w !! request_data = Some d ->
  Dict.mem "openai_api_key" d = false ->
  Dict.get "google_api_key" d = Some (VStr g) ->
  let run := redact_log rt request_data w in
  exists log_data : loc,
    fst run = Ret log_data
    /\ heap w !! log_data = None
    /\ heap (snd run) !! request_data = Some d
    /\ exists logged : pydict,
         heap (snd run) !! log_data = Some logged
         /\ forall k : string,
              Dict.get k logged
              = (if String.eqb "google_api_key" k
                 then Some (VStr (slice_to 5 g +:+ "..." +:+ slice_last 5 g))
                 else Dict.get k d).
Proof.
  intros Hd Ho Hg run. subst run.
  set (l1 := fresh (dom (heap w))).
  assert (Hf : heap w !! l1 = None) by (apply not_elem_of_dom, is_fresh).
  assert (Hne : l1 <> request_data) by (intros E; congruence).
  unfold redact_log.
  rewrite (bind_ret _ _ _ _ _ (dict_copy_run _ _ _ Hd)). fold l1.
  set (w1 := with_heap _ w).
  assert (H1 : heap w1 !! l1 = Some d) by apply lookup_insert_eq.
  rewrite (bind_ret _ _ _ _ _ (dict_contains_run _ "openai_api_key" _ _ H1)).
  rewrite Ho.
  rewrite (bind_ret _ _ w1 w1 None) by reflexivity.
  rewrite (bind_ret _ _ _ _ _ (dict_contains_run _ "google_api_key" _ _ H1)).
  assert (Hm : Dict.mem "google_api_key" d = true)
    by (unfold Dict.mem; now rewrite Hg).
  rewrite Hm.
  assert (E1 : dict_getitem l1 "google_api_key" w1 = (Ret (VStr g), w1)).
  { unfold dict_getitem.
    rewrite (bind_ret _ _ _ _ _ (heap_read_run _ _ _ H1)). now rewrite Hg. }
  erewrite (bind_ret _ _ w1).
  2:{ rewrite (bind_ret _ _ _ _ _ E1).
      rewrite (bind_ret _ _ _ _ _ (redact_str rt g w1)).
      rewrite (bind_ret _ _ _ _ _ (dict_setitem_run _ _ _ _ _ H1)).
      reflexivity. }
  unfold ret. cbn [fst snd].
  exists l1. split; [reflexivity|]. split; [exact Hf|].
  unfold with_heap. cbn [heap]. split.
  - rewrite lookup_insert_ne by exact Hne.
    subst w1. unfold with_heap. cbn [heap].
    now rewrite lookup_insert_ne by exact Hne.
  - eexists. split; [apply lookup_insert_eq|].
    intros k. apply DictFacts.get_set.
Qed.

Lemma redact_log_google_witness :
  let d := [("text", VStr "essay");
            ("google_api_key", VStr "AIza0123456789")] in
  let run := redact_log (demo_runtime (Response 200 "{}")) 1%positive
               (demo_world d) in
  exists log_data : loc,
    fst run = Ret log_data
    /\ heap (demo_world d) !! log_data = None
    /\ heap (snd run) !! 1%positive = Some d
    /\ exists logged : pydict,
         heap (snd run) !! log_data = Some logged
         /\ forall k : string,
              Dict.get k logged
              = (if String.eqb "google_api_key" k
                 then Some (VStr (slice_to 5 "AIza0123456789" +:+ "..."
                                  +:+ slice_last 5 "AIza0123456789"))
                 else Dict.get k d).
Proof.
  apply (redact_log_google (demo_runtime (Response 200 "{}")) 1%positive
           [("text", VStr "essay");
            ("google_api_key", VStr "AIza0123456789")]
           "AIza0123456789"
           (demo_world [("text", VStr "essay");
                        ("google_api_key", VStr "AIza0123456789")]));
    reflexivity.
Defined.

(** ** The Grading tab (lines 129-188) *)

(** Without a processed document, or without a press of the button, the tab
    shows its two headings and does nothing else: no name is looked up, no
    call is made and nothing is stored, whatever the checkbox says. *)
Theorem tab2_idle (globals : gmap string (string -> loc -> M value))
    (rubric : string) (check button : bool) (w : world) :
  Dict.mem "document_text" (session_state w) && button = false ->
  tab2 globals rubric check button w
  = (Ret tt,
     with_ui (ui w ++ [StHeader "Grading Configuration";
                       StSubheader "Grading Rubric"]) w).
Proof.
  intros H. unfold tab2, bind, st_show, session_contains.
  cbn [fst snd session_state with_ui ui]. rewrite H.
  unfold ret, with_ui. cbn [heap session_state log ui wire].
  now rewrite <- app_assoc.
Qed.

Lemma tab2_idle_witness :
  tab2 ∅ "rubric" true true (demo_world [])
  = (Ret tt,
     with_ui (ui (demo_world []) ++ [StHeader "Grading Configuration";
                                     StSubheader "Grading Rubric"])
       (demo_world [])).
Proof.
  apply (tab2_idle ∅ "rubric" true true (demo_world [])). reflexivity.
Defined.

(** With the names the module defines, a confirmed grading of a processed
    document ends in [NameError] for [call_mcp_tool], with the checkbox
    checked or not: the rubric is the only thing stored, and no request is
    sent. *)
Theorem tab2_helper_undefined (rt : Runtime) (cfg : config)
    (rubric : string) (check : bool) (w : world) :
  Dict.mem "document_text" (session_state w) = true ->
  let run := tab2 (module_globals rt cfg) rubric check true w in
  fst run = Raise (NameError "call_mcp_tool")
  /\ session_state (snd run)
     = Dict.set "rubric" (VStr rubric) (session_state w)
  /\ heap (snd run) = heap w /\ log (snd run) = log w
  /\ wire (snd run) = wire w.
Proof.
  intros Hdoc run. subst run.
  unfold tab2, bind, st_show, session_contains, session_setitem.
  cbn [fst snd session_state with_ui ui]. rewrite Hdoc.
  cbn [andb].
  assert (Hg : module_globals rt cfg !! "call_mcp_tool" = None)
    by (unfold module_globals; now apply lookup_singleton_ne).
  unfold read_global. rewrite Hg.
  destruct check; repeat split.
Qed.

Lemma tab2_helper_undefined_witness :
  let run := tab2 (module_globals (demo_runtime (Response 200 "{}"))
                     demo_config) "rubric" true true graded_session in
  fst run = Raise (NameError "call_mcp_tool")
  /\ session_state (snd run)
     = Dict.set "rubric" (VStr "rubric") (session_state graded_session)
  /\ heap (snd run) = heap graded_session
  /\ log (snd run) = log graded_session
  /\ wire (snd run) = wire graded_session.
Proof.
  apply (tab2_helper_undefined (demo_runtime (Response 200 "{}"))
           demo_config "rubric" true graded_session).
  reflexivity.
Defined.

(** With the plagiarism check enabled, whatever function [call_mcp_tool]
    names, the tab reads the session key [document_Text]; in a session
    without that key it ends in [KeyError] before the function is called:
    no dict is made and no request is sent. *)
Theorem tab2_plagiarism_wrong_key
    (globals : gmap string (string -> loc -> M value))
    (f : string -> loc -> M value) (rubric : string) (w : world) :
  Dict.mem "document_text" (session_state w) = true ->
  globals !! "call_mcp_tool" = Some f ->
  Dict.get "document_Text" (session_state w) = None ->
  let run := tab2 globals rubric true true w in
  fst run = Raise (KeyError "document_Text")
  /\ heap (snd run) = heap w /\ wire (snd run) = wire w
  /\ log (snd run) = log w.
Proof.
  intros Hdoc Hg Hk run. subst run.
  rewrite (tab2_key_error rubric w Hdoc globals f Hg Hk).
  repeat split.
Qed.

Lemma tab2_plagiarism_wrong_key_witness :
  let run := tab2 {[ "call_mcp_tool" :=
                       call_api_tool (demo_runtime (Response 200 "{}"))
                         demo_config ]}
               "rubric" true true graded_session in
  fst run = Raise (KeyError "document_Text")
  /\ heap (snd run) = heap graded_session
  /\ wire (snd run) = wire graded_session
  /\ log (snd run) = log graded_session.
Proof.
  apply (tab2_plagiarism_wrong_key
           {[ "call_mcp_tool" :=
                call_api_tool (demo_runtime (Response 200 "{}"))
                  demo_config ]}
           (call_api_tool (demo_runtime (Response 200 "{}")) demo_config)
           "rubric" graded_session); reflexivity.
Defined.

(** With the plagiarism check disabled and [call_mcp_tool] naming a
    function, the first call is [grade_text] on a new dict that holds the
    stored document text under [text] and the rubric under [rubric], made
    after the rubric is stored; an exception of that call ends the tab
    there. *)
Theorem tab2_first_call (globals : gmap string (string -> loc -> M value))
    (f : string -> loc -> M value) (rubric : string) (doc : value)
    (w : world) (e : exn) (w2 : world) :
  globals !! "call_mcp_tool" = Some f ->
  Dict.get "document_text" (session_state w) = Some doc ->
  f "grade_text" (fresh (dom (heap w)))
    (mk_world
       (<[fresh (dom (heap w)) := [("text", doc); ("rubric", VStr rubric)]]>
          (heap w))
       (Dict.set "rubric" (VStr rubric) (session_state w))
       (log w)
       (ui w ++ [StHeader "Grading Configuration";
                 StSubheader "Grading Rubric";
                 StInfo "Generating grade..."])
       (wire w))
  = (Raise e, w2) ->
  tab2 globals rubric false true w = (Raise e, w2).
Proof.
  intros Hg Hdoc Hf.
  unfold tab2, bind, st_show, session_contains, session_setitem.
  cbn [fst snd session_state with_ui with_session ui].
  unfold Dict.mem. rewrite Hdoc. cbn [andb].
  unfold read_global. rewrite Hg. unfold ret.
  unfold session_getitem, with_ui, with_session.
  cbn [heap session_state log ui wire].
  rewrite DictFacts.get_set_ne by discriminate. rewrite Hdoc.
  unfold dict_new, with_heap. cbn [heap session_state log ui wire].
  rewrite <- !app_assoc. cbn [app].
  change (Dict.literal [("text", doc); ("rubric", VStr rubric)])
    with [("text", doc); ("rubric", VStr rubric)].
  now rewrite Hf.
Qed.

Lemma tab2_first_call_witness :
  tab2 {[ "call_mcp_tool" :=
            call_api_tool (demo_runtime (Response 200 "{}")) demo_config ]}
    "rubric" false true graded_session
  = (Raise (UnboundLocalError "key"),
     snd (call_api_tool (demo_runtime (Response 200 "{}")) demo_config
            "grade_text" (fresh (dom (heap graded_session)))
            (mk_world
               (<[fresh (dom (heap graded_session))
                  := [("text", VStr "essay"); ("rubric", VStr "rubric")]]>
                  (heap graded_session))
               (Dict.set "rubric" (VStr "rubric")
                  (session_state graded_session))
               (log graded_session)
               (ui graded_session
                ++ [StHeader "Grading Configuration";
                    StSubheader "Grading Rubric";
                    StInfo "Generating grade..."])
               (wire graded_session)))).
Proof.
  apply (tab2_first_call
           {[ "call_mcp_tool" :=
                call_api_tool (demo_runtime (Response 200 "{}"))
                  demo_config ]}
           (call_api_tool (demo_runtime (Response 200 "{}")) demo_config)
           "rubric" (VStr "essay") graded_session);
    [reflexivity | reflexivity | vm_compute; reflexivity].
Defined.

(** Whatever function [call_mcp_tool] names: a confirmed grading that
    returns has called it for [grade_text] and for [generate_feedback],
    has stored the feedback, and ends the page with the success message
    and the balloons when one of the two results is not [None], with the
    error message when both are. *)
Theorem tab2_verdict_follows_results
    (globals : gmap string (string -> loc -> M value))
    (rubric : string) (check : bool) (w w' : world) :
  Dict.mem "document_text" (session_state w) = true ->
  tab2 globals rubric check true w = (Ret tt, w') ->
  exists (f : string -> loc -> M value) (p1 p2 : loc)
         (w1 w1' w2 w2' : world) (grade_results feedback : value)
         (shown : list ui_event),
    globals !! "call_mcp_tool" = Some f
    /\ f "grade_text" p1 w1 = (Ret grade_results, w1')
    /\ f "generate_feedback" p2 w2 = (Ret feedback, w2')
    /\ Dict.get "feedback" (session_state w') = Some feedback
    /\ (grade_results <> VNone \/ feedback <> VNone ->
        ui w' = (shown ++ [StSuccess "Grading completed!"; StBalloons])%list)
    /\ (grade_results = VNone /\ feedback = VNone ->
        ui w'
        = (shown
           ++ [StError
                 "Grading process encountered errors. Please check your server connection and API settings"])%list).
Proof.
  intros Hdoc Hrun.
  destruct (tab2_verdict globals rubric check w w' Hdoc Hrun)
    as (f & p1 & p2 & w1 & w1' & w2 & w2' & g & fb & shown
        & Hg & H1 & H2 & Hfb & Hui).
  exists f, p1, p2, w1, w1', w2, w2', g, fb, shown.
  repeat (split; [assumption|]). split.
  - intros Hsome. now rewrite Hui, verdict_events_success.
  - intros [-> ->]. now rewrite Hui, verdict_events_failure.
Qed.

Lemma tab2_verdict_follows_results_witness :
  let globals : gmap string (string -> loc -> M value) :=
    {[ "call_mcp_tool" :=
         request_only (demo_runtime (TransportError "Connection refused")) ]}
  in
  let w' := snd (tab2 globals "rubric" false true graded_session) in
  exists (f : string -> loc -> M value) (p1 p2 : loc)
         (w1 w1' w2 w2' : world) (grade_results feedback : value)
         (shown : list ui_event),
    globals !! "call_mcp_tool" = Some f
    /\ f "grade_text" p1 w1 = (Ret grade_results, w1')
    /\ f "generate_feedback" p2 w2 = (Ret feedback, w2')
    /\ Dict.get "feedback" (session_state w') = Some feedback
    /\ (grade_results <> VNone \/ feedback <> VNone ->
        ui w' = (shown ++ [StSuccess "Grading completed!"; StBalloons])%list)
    /\ (grade_results = VNone /\ feedback = VNone ->
        ui w'
        = (shown
           ++ [StError
                 "Grading process encountered errors. Please check your server connection and API settings"])%list).
Proof.
  apply (tab2_verdict_follows_results
           {[ "call_mcp_tool" :=
                request_only
                  (demo_runtime (TransportError "Connection refused")) ]}
           "rubric" false graded_session).
  - reflexivity.
  - vm_compute. reflexivity.
Defined.

(** ** The Results tab (lines 191-241) *)

Section Shows.

Context {A B : Type} (P : ui_event -> Prop).

Lemma shows_nothing (m : M A) :
  (forall w, snd (m w) = w) -> shows P m.
Proof.
  intros H w. exists []. split; [|constructor].
  rewrite H. unfold with_ui. rewrite app_nil_r. now destruct w.
Qed.

Lemma shows_ret (a : A) : shows P (ret a).
Proof. now apply shows_nothing. Qed.

Lemma shows_raise (e : exn) : shows P (@raise A e).
Proof. now apply shows_nothing. Qed.

Lemma shows_bind (m : M A) (k : A -> M B) :
  shows P m -> (forall a, shows P (k a)) -> shows P (bind m k).
Proof.
  intros Hm Hk w. unfold bind.
  destruct (Hm w) as (ev1 & E1 & P1).
  destruct (m w) as [[a|e] w1]; cbn [snd] in E1; subst w1.
  - destruct (Hk a (with_ui (ui w ++ ev1) w)) as (ev2 & E2 & P2).
    exists (ev1 ++ ev2)%list. split.
    + rewrite E2. unfold with_ui.
      cbn [heap session_state log ui wire]. now rewrite app_assoc.
    + now apply Forall_app.
  - now exists ev1.
Qed.

End Shows.

Section ShowsPrimitives.

Context (P : ui_event -> Prop).

Lemma shows_st_show (e : ui_event) : P e -> shows P (st_show e).
Proof. intros He w. exists [e]. split; [reflexivity | now constructor]. Qed.

Lemma shows_session_contains (k : string) : shows P (session_contains k).
Proof. now apply shows_nothing. Qed.

Lemma shows_session_getitem (k : string) : shows P (session_getitem k).
Proof.
  apply shows_nothing. intros w. unfold session_getitem.
  now destruct (Dict.get k (session_state w)).
Qed.

Lemma shows_get_world : shows P get_world.
Proof. now apply shows_nothing. Qed.

Lemma shows_py_gt (v : value) (n : Z) : shows P (py_gt v n).
Proof. destruct v; first [apply shows_ret | apply shows_raise]. Qed.

Lemma shows_py_items (v : value) : shows P (py_items v).
Proof. destruct v; first [apply shows_ret | apply shows_raise]. Qed.

Lemma shows_py_contains_key (k : string) (v : value) :
  shows P (py_contains_key k v).
Proof. destruct v; first [apply shows_ret | apply shows_raise]. Qed.

Lemma shows_py_getitem (v : value) (k : string) : shows P (py_getitem v k).
Proof.
  destruct v; try apply shows_raise.
  cbn [py_getitem]. destruct (Dict.get k d);
    [apply shows_ret | apply shows_raise].
Qed.

Lemma shows_py_get (v : value) (k : string) (default : value) :
  shows P (py_get v k default).
Proof. destruct v; first [apply shows_ret | apply shows_raise]. Qed.

Hypothesis P_warning : forall s, P (StWarning ("High similarity (" +:+ s)).
Hypothesis P_info : forall s, P (StInfo s).
Hypothesis P_success : forall s, P (StSuccess s).

Lemma shows_show_similarity (rt : Runtime) (url : string) (v : value) :
  shows P (show_similarity rt url v).
Proof.
  unfold show_similarity.
  apply shows_bind; [apply shows_py_gt|].
  intros [|]; [apply shows_st_show, P_warning|].
  apply shows_bind; [apply shows_py_gt|].
  intros [|]; apply shows_st_show; [apply P_info | apply P_success].
Qed.

Lemma shows_show_similarities (rt : Runtime) (items : pydict) :
  shows P (show_similarities rt items).
Proof.
  induction items as [|[url v] items IH].
  - apply (shows_ret P tt).
  - cbn [show_similarities]. apply shows_bind.
    + apply shows_show_similarity.
    + intros _. exact IH.
Qed.

Hypothesis P_subheader : forall s, P (StSubheader s).
Hypothesis P_error : forall s, P (StError s).
Hypothesis P_markdown : forall v, P (StMarkdown v).

(** Lines 215-231 show messages of these kinds only, whether or not the
    warning of line 220 is one of them: a stored value that passes the
    test of line 215 is not [None]. *)
Lemma shows_show_plagiarism (rt : Runtime) : shows P (show_plagiarism rt).
Proof.
  intros w. unfold show_plagiarism.
  unfold bind at 1. unfold session_contains at 1. unfold Dict.mem.
  destruct (Dict.get "plagiarism_results" (session_state w)) as [r|] eqn:Hr.
  2:{ exists []. unfold bind, ret, with_ui. cbn [snd].
      rewrite app_nil_r. split; [now destruct w | constructor]. }
  unfold bind at 1. unfold bind at 1. unfold session_getitem at 1.
  rewrite Hr. unfold ret at 1.
  destruct (py_truthy r) eqn:Ht.
  2:{ exists []. unfold ret, with_ui. cbn [snd].
      rewrite app_nil_r. split; [now destruct w | constructor]. }
  assert (Hn : is_none r = false) by (now destruct r).
  revert w Hr.
  change (forall w,
             Dict.get "plagiarism_results" (session_state w) = Some r ->
             exists events,
               snd (bind (st_show (StSubheader "Plagiarism Check"))
                      (fun _ =>
                         bind (session_getitem "plagiarism_results")
                           (fun results =>
                              if is_none results then st_show no_results_warning
                              else
                                bind (py_contains_key "error" results)
                                  (fun has_error : bool =>
                                     if has_error then
                                       bind (py_getitem results "error")
                                         (fun e =>
                                            st_show
                                              (StError
                                                 ("Plagiarism check error: "
                                                  +:+ py_str rt e)))
                                     else
                                       bind
                                         (st_show
                                            (StMarkdown
                                               (VStr
                                                  "**Similarity matches found:**")))
                                         (fun _ =>
                                            bind (py_items results)
                                              (show_similarities rt))))) w)
               = with_ui (ui w ++ events) w
               /\ Forall P events).
  intros w Hr.
  unfold bind at 1. unfold st_show at 1.
  unfold bind at 1. unfold session_getitem at 1.
  cbn [session_state with_ui]. rewrite Hr. rewrite Hn.
  set (w1 := with_ui _ w).
  assert (Hrest : shows P
            (bind (py_contains_key "error" r)
               (fun has_error : bool =>
                  if has_error then
                    bind (py_getitem r "error")
                      (fun e =>
                         st_show
                           (StError
                              ("Plagiarism check error: " +:+ py_str rt e)))
                  else
                    bind
                      (st_show
                         (StMarkdown (VStr "**Similarity matches found:**")))
                      (fun _ => bind (py_items r) (show_similarities rt))))).
  { apply shows_bind; [apply shows_py_contains_key|]. intros [|].
    - apply shows_bind; [apply shows_py_getitem|].
      intros e. apply shows_st_show, P_error.
    - apply shows_bind; [apply shows_st_show, P_markdown|]. intros _.
      apply shows_bind; [apply shows_py_items|].
      intros items. apply shows_show_similarities. }
  destruct (Hrest w1) as (evs & E & HP).
  exists (StSubheader "Plagiarism Check" :: evs). split.
  - rewrite E. subst w1. unfold with_ui.
    cbn [heap session_state log ui wire]. now rewrite <- app_assoc.
  - constructor; [apply P_subheader | exact HP].
Qed.

End ShowsPrimitives.

(** The Results tab only renders: on every session state, whether it
    returns or raises, it leaves the heap, the session state, the log and
    the requests sent as they were, and keeps what the page showed. *)
Theorem tab3_read_only (rt : Runtime) (export_button save_button : bool)
    (w : world) :
  exists events : list ui_event,
    snd (tab3 rt export_button save_button w)
    = mk_world (heap w) (session_state w) (log w) (ui w ++ events) (wire w).
Proof.
  assert (H : shows (fun _ => True) (tab3 rt export_button save_button)).
  { assert (Hshow : forall e, shows (fun _ => True) (st_show e))
      by (intros e; now apply shows_st_show).
    unfold tab3.
    apply shows_bind; [apply Hshow|]. intros _.
    apply shows_bind; [apply shows_get_world|]. intros w0.
    destruct (forallb _ _); [|apply Hshow].
    apply shows_bind; [apply shows_session_getitem|]. intros fn.
    apply shows_bind; [apply Hshow|]. intros _.
    apply shows_bind; [apply shows_session_contains|]. intros hg.
    apply shows_bind.
    { destruct hg; [|apply shows_ret].
      apply shows_bind; [apply shows_session_getitem|]. intros g.
      destruct (negb (is_none g)).
      - apply shows_bind; [apply shows_session_getitem|]. intros g'.
        apply shows_bind; [apply shows_py_get|].
        intros grade. apply Hshow.
      - apply shows_bind; [apply Hshow|]. intros _. apply Hshow. }
    intros _.
    apply shows_bind; [apply shows_session_contains|]. intros hf.
    apply shows_bind.
    { destruct hf; [|apply shows_ret].
      apply shows_bind; [apply shows_session_getitem|]. intros fb.
      destruct (negb (is_none fb)).
      - apply shows_bind; [apply Hshow|]. intros _.
        apply shows_bind; [apply shows_session_getitem|]. intros fb'.
        apply Hshow.
      - apply Hshow. }
    intros _.
    apply shows_bind; [now apply shows_show_plagiarism|]. intros _.
    apply shows_bind; [apply Hshow|]. intros _.
    apply shows_bind.
    { destruct export_button; [apply Hshow | apply shows_ret]. }
    intros _.
    destruct save_button; [apply Hshow | apply shows_ret]. }
  destruct (H w) as (events & E & _). now exists events.
Qed.

(** The warning of line 220, that the plagiarism results are not
    available, is never shown: lines 215-231 add to the page only messages
    other than it, on every session state. *)
Theorem show_plagiarism_never_warns (rt : Runtime) (w : world) :
  exists events : list ui_event,
    snd (show_plagiarism rt w) = with_ui (ui w ++ events) w
    /\ ~ In no_results_warning events.
Proof.
  destruct (shows_show_plagiarism (fun e => e <> no_results_warning)) with
    (rt := rt) (w := w) as (events & E & HP);
    try (intros s; discriminate).
  exists events. split; [exact E|].
  intros Hin. rewrite Forall_forall in HP.
  apply (HP no_results_warning); [|reflexivity].
  now apply list_elem_of_In.
Qed.

(** Unless the session holds all of [file_name], [grade_results] and
    [feedback], the tab shows its heading and the notice that no results
    are available, and nothing else. *)
Theorem tab3_without_results (rt : Runtime)
    (export_button save_button : bool) (w : world) :
  forallb (fun k => Dict.mem k (session_state w))
    ["file_name"; "grade_results"; "feedback"] = false ->
  tab3 rt export_button save_button w
  = (Ret tt,
     with_ui
       (ui w ++ [StHeader "Grading Results";
                 StInfo "No grading results available. Please upload and grade an assignment first."])
       w).
Proof.
  intros H. unfold tab3, bind, st_show, get_world.
  cbn [fst snd session_state with_ui ui]. rewrite H.
  unfold with_ui. cbn [heap session_state log ui wire].
  now rewrite <- app_assoc.
Qed.

Lemma tab3_without_results_witness :
  tab3 (demo_runtime (Response 200 "{}")) false false graded_session
  = (Ret tt,
     with_ui
       (ui graded_session
        ++ [StHeader "Grading Results";
            StInfo "No grading results available. Please upload and grade an assignment first."])
       graded_session).
Proof.
  apply (tab3_without_results (demo_runtime (Response 200 "{}")) false false
           graded_session).
  reflexivity.
Defined.

(** Lines 215-231 show nothing when [plagiarism_results] is absent or holds
    a value that is false in a condition: [None] (a failed check), an empty
    dict, an empty string or list, zero or [False]. *)
Theorem show_plagiarism_skipped (rt : Runtime) (w : world) :
  (forall r, Dict.get "plagiarism_results" (session_state w) = Some r ->
             py_truthy r = false) ->
  show_plagiarism rt w = (Ret tt, w).
Proof.
  intros H. unfold show_plagiarism, bind, session_contains, Dict.mem.
  destruct (Dict.get "plagiarism_results" (session_state w)) as [r|] eqn:E.
  - unfold session_getitem. rewrite E. unfold ret.
    now rewrite (H r eq_refl).
  - reflexivity.
Qed.

Lemma show_plagiarism_skipped_witness :
  show_plagiarism (demo_runtime (Response 200 "{}"))
    (with_session [("plagiarism_results", VNone)] (demo_world []))
  = (Ret tt, with_session [("plagiarism_results", VNone)] (demo_world [])).
Proof.
  apply (show_plagiarism_skipped (demo_runtime (Response 200 "{}"))
           (with_session [("plagiarism_results", VNone)] (demo_world []))).
  intros r [= <-]. reflexivity.
Defined.

(** When the grade and the feedback are stored as [None] (both calls
    failed), the tab still renders: it shows the two warnings and the grade
    [Not available]. *)
Theorem tab3_failed_grading (rt : Runtime) (file_name : value) (w : world) :
  Dict.get "file_name" (session_state w) = Some file_name ->
  Dict.get "grade_results" (session_state w) = Some VNone ->
  Dict.get "feedback" (session_state w) = Some VNone ->
  (forall r, Dict.get "plagiarism_results" (session_state w) = Some r ->
             py_truthy r = false) ->
  tab3 rt false false w
  = (Ret tt,
     with_ui
       (ui w ++ [StHeader "Grading Results";
                 StSubheader ("Results for: " +:+ py_str rt file_name);
                 StWarning "Grade information is not available. There might have been an error during grading.";
                 StMetric "Grade" (VStr "Not available");
                 StWarning "Feedback is not available.There might have been an error during generating feedback.";
                 StSubheader "Export Options"])
       w).
Proof.
  intros Hn Hg Hf Hp.
  unfold tab3, bind, st_show, get_world, session_getitem, session_contains,
    Dict.mem, ret, with_ui.
  repeat first
    [ progress cbn [fst snd heap session_state log ui wire andb negb is_none
                    forallb]
    | rewrite Hn | rewrite Hg | rewrite Hf
    | rewrite show_plagiarism_skipped by (intros r Hr; apply Hp; exact Hr) ].
  rewrite <- !app_assoc. reflexivity.
Qed.

Lemma tab3_failed_grading_witness :
  let w := with_session [("file_name", VStr "essay.pdf");
                         ("grade_results", VNone); ("feedback", VNone)]
             (demo_world []) in
  tab3 (demo_runtime (Response 200 "{}")) false false w
  = (Ret tt,
     with_ui
       (ui w ++ [StHeader "Grading Results";
                 StSubheader ("Results for: "
                              +:+ py_str (demo_runtime (Response 200 "{}"))
                                    (VStr "essay.pdf"));
                 StWarning "Grade information is not available. There might have been an error during grading.";
                 StMetric "Grade" (VStr "Not available");
                 StWarning "Feedback is not available.There might have been an error during generating feedback.";
                 StSubheader "Export Options"])
       w).
Proof.
  apply (tab3_failed_grading (demo_runtime (Response 200 "{}"))
           (VStr "essay.pdf")
           (with_session [("file_name", VStr "essay.pdf");
                          ("grade_results", VNone); ("feedback", VNone)]
              (demo_world []))); try reflexivity.
  intros r H. discriminate H.
Defined.

(** A grade result that is neither [None] nor a dict, such as the raw text
    of a reply that was not JSON, makes the tab raise [AttributeError] on
    line 200, right after the results heading. *)
Theorem tab3_grade_not_a_dict (rt : Runtime)
    (export_button save_button : bool) (file_name grade feedback : value)
    (w : world) :
  Dict.get "file_name" (session_state w) = Some file_name ->
  Dict.get "grade_results" (session_state w) = Some grade ->
  Dict.get "feedback" (session_state w) = Some feedback ->
  grade <> VNone ->
  (forall d, grade <> VDict d) ->
  tab3 rt export_button save_button w
  = (Raise (AttributeError "object has no attribute 'get'"),
     with_ui
       (ui w ++ [StHeader "Grading Results";
                 StSubheader ("Results for: " +:+ py_str rt file_name)])
       w).
Proof.
  intros Hn Hg Hf Hnone Hdict.
  assert (Hn' : is_none grade = false)
    by (destruct grade; try reflexivity; now contradiction Hnone).
  assert (Hget : forall w0,
             py_get grade "grade" (VStr "Not available") w0
             = (Raise (AttributeError "object has no attribute 'get'"), w0)).
  { intros w0. destruct grade; try reflexivity. now contradiction (Hdict d). }
  unfold tab3, bind, st_show, get_world, session_getitem, session_contains,
    Dict.mem, ret, with_ui.
  repeat first
    [ progress cbn [fst snd heap session_state log ui wire andb negb forallb]
    | rewrite Hn | rewrite Hg | rewrite Hf | rewrite Hn' | rewrite Hget ].
  rewrite <- !app_assoc. reflexivity.
Qed.

Lemma tab3_grade_not_a_dict_witness :
  let w := with_session [("file_name", VStr "essay.pdf");
                         ("grade_results", VStr "B+");
                         ("feedback", VStr "Good work")]
             (demo_world []) in
  tab3 (demo_runtime (Response 200 "{}")) false false w
  = (Raise (AttributeError "object has no attribute 'get'"),
     with_ui
       (ui w ++ [StHeader "Grading Results";
                 StSubheader ("Results for: "
                              +:+ py_str (demo_runtime (Response 200 "{}"))
                                    (VStr "essay.pdf"))])
       w).
Proof.
  apply (tab3_grade_not_a_dict (demo_runtime (Response 200 "{}")) false false
           (VStr "essay.pdf") (VStr "B+") (VStr "Good work")
           (with_session [("file_name", VStr "essay.pdf");
                          ("grade_results", VStr "B+");
                          ("feedback", VStr "Good work")]
              (demo_world []))); try reflexivity; discriminate.
Defined.

(** Stored results with an [error] key: the section shows its heading and
    the error text, and no similarity line, whatever else the dict
    holds. *)
Theorem show_plagiarism_error (rt : Runtime) (d : pydict) (e : value)
    (w : world) :
  Dict.get "plagiarism_results" (session_state w) = Some (VDict d) ->
  Dict.get "error" d = Some e ->
  show_plagiarism rt w
  = (Ret tt,
     with_ui
       (ui w ++ [StSubheader "Plagiarism Check";
                 StError ("Plagiarism check error: " +:+ py_str rt e)])
       w).
Proof.
  intros Hr He.
  assert (Ht : py_truthy (VDict d) = true)
    by (destruct d; [discriminate He | reflexivity]).
  unfold show_plagiarism, bind, session_contains, session_getitem, st_show,
    with_ui, py_contains_key, py_getitem, Dict.mem, ret.
  repeat first
    [ progress cbn [fst snd heap session_state log ui wire is_none]
    | rewrite Hr | rewrite Ht | rewrite He ].
  now rewrite <- app_assoc.
Qed.

Lemma show_plagiarism_error_witness :
  let w := with_session
             [("plagiarism_results",
               VDict [("error", VStr "quota exceeded");
                      ("siteA.com", VInt 85)])]
             (demo_world []) in
  show_plagiarism (demo_runtime (Response 200 "{}")) w
  = (Ret tt,
     with_ui
       (ui w ++ [StSubheader "Plagiarism Check";
                 StError ("Plagiarism check error: "
                          +:+ py_str (demo_runtime (Response 200 "{}"))
                                (VStr "quota exceeded"))])
       w).
Proof.
  apply (show_plagiarism_error (demo_runtime (Response 200 "{}"))
           [("error", VStr "quota exceeded"); ("siteA.com", VInt 85)]
           (VStr "quota exceeded")
           (with_session
              [("plagiarism_results",
                VDict [("error", VStr "quota exceeded");
                       ("siteA.com", VInt 85)])]
              (demo_world []))); reflexivity.
Defined.

(** One match with a number shows one message and returns. *)
Lemma show_similarity_numeric (rt : Runtime) (url : string) (v : value) :
  numeric v <> None ->
  exists e : ui_event,
    forall w, show_similarity rt url v w
              = (Ret tt, with_ui (ui w ++ [e]) w).
Proof.
  intros Hv. destruct (numeric v) as [q|] eqn:Hq; [|now contradiction Hv].
  unfold show_similarity.
  destruct (Qle_bool q (inject_Z 70)) eqn:E70.
  - destruct (Qle_bool q (inject_Z 40)) eqn:E40.
    + eexists. intros w.
      rewrite (bind_ret _ _ _ _ _ (py_gt_numeric _ _ 70 w Hq)).
      rewrite E70. cbn [negb].
      rewrite (bind_ret _ _ _ _ _ (py_gt_numeric _ _ 40 w Hq)).
      rewrite E40. reflexivity.
    + eexists. intros w.
      rewrite (bind_ret _ _ _ _ _ (py_gt_numeric _ _ 70 w Hq)).
      rewrite E70. cbn [negb].
      rewrite (bind_ret _ _ _ _ _ (py_gt_numeric _ _ 40 w Hq)).
      rewrite E40. reflexivity.
  - eexists. intros w.
    rewrite (bind_ret _ _ _ _ _ (py_gt_numeric _ _ 70 w Hq)).
    rewrite E70. reflexivity.
Qed.

(** When every similarity is a number, the loop of lines 225-231 returns
    and shows exactly one message per match, in the order of the dict: the
    message the loop body shows for that match. *)
Theorem show_similarities_numeric (rt : Runtime) (items : pydict)
    (w : world) :
  Forall (fun kv => numeric (snd kv) <> None) items ->
  exists events : list ui_event,
    show_similarities rt items w = (Ret tt, with_ui (ui w ++ events) w)
    /\ Forall2
         (fun kv e =>
            forall w0, show_similarity rt (fst kv) (snd kv) w0
                       = (Ret tt, with_ui (ui w0 ++ [e]) w0))
         items events.
Proof.
  intros H. revert w.
  induction H as [|[url v] items Hv _ IH]; intros w.
  - exists []. split; [|constructor].
    unfold with_ui. rewrite app_nil_r. now destruct w.
  - destruct (show_similarity_numeric rt url v Hv) as [e He].
    destruct (IH (with_ui (ui w ++ [e]) w)) as (events & E & F).
    exists (e :: events). split.
    + cbn [show_similarities].
      rewrite (bind_ret _ _ _ _ _ (He w)). rewrite E.
      unfold with_ui. cbn [heap session_state log ui wire].
      now rewrite <- app_assoc.
    + constructor; [exact He | exact F].
Qed.

Lemma show_similarities_numeric_witness :
  let items := [("siteA.com", VInt 85); ("siteB.org", VInt 12)] in
  let rt := demo_runtime (Response 200 "{}") in
  exists events : list ui_event,
    show_similarities rt items (demo_world [])
    = (Ret tt, with_ui (ui (demo_world []) ++ events) (demo_world []))
    /\ Forall2
         (fun kv e =>
            forall w0, show_similarity rt (fst kv) (snd kv) w0
                       = (Ret tt, with_ui (ui w0 ++ [e]) w0))
         items events.
Proof.
  apply (show_similarities_numeric (demo_runtime (Response 200 "{}"))
           [("siteA.com", VInt 85); ("siteB.org", VInt 12)] (demo_world [])).
  repeat constructor; discriminate.
Defined.

(** A similarity that is not a number (a string such as ["85%"], [None], a
    list or a dict) makes the loop raise [TypeError] at that match: the
    matches before it are shown, one message each, the ones after it are
    not. *)
Theorem show_similarities_not_a_number (rt : Runtime)
    (before after : pydict) (url : string) (v : value) (w : world) :
  Forall (fun kv => numeric (snd kv) <> None) before ->
  numeric v = None ->
  (forall b, v <> VBool b) ->
  exists events : list ui_event,
    show_similarities rt (before ++ (url, v) :: after) w
    = (Raise (TypeError "'>' not supported between these instances"),
       with_ui (ui w ++ events) w)
    /\ length events = length before.
Proof.
  intros Hb Hv Hbool. revert w.
  assert (Hgt : forall w,
             py_gt v 70 w
             = (Raise (TypeError "'>' not supported between these instances"),
                w)).
  { intros w. destruct v; try reflexivity; try discriminate Hv.
    now contradiction (Hbool b). }
  induction Hb as [|[u x] before Hx _ IH]; intros w.
  - exists []. split; [|reflexivity].
    cbn [app show_similarities]. unfold bind, show_similarity, bind.
    rewrite Hgt. unfold with_ui. rewrite app_nil_r. now destruct w.
  - destruct (show_similarity_numeric rt u x Hx) as [e He].
    destruct (IH (with_ui (ui w ++ [e]) w)) as (events & E & L).
    exists (e :: events). split; [|cbn [length]; now rewrite L].
    cbn [app show_similarities].
    rewrite (bind_ret _ _ _ _ _ (He w)). rewrite E.
    unfold with_ui. cbn [heap session_state log ui wire].
    now rewrite <- app_assoc.
Qed.

Lemma show_similarities_not_a_number_witness :
  let rt := demo_runtime (Response 200 "{}") in
  exists events : list ui_event,
    show_similarities rt
      ([("siteA.com", VInt 85)] ++ ("siteB.org", VStr "12%") :: [])
      (demo_world [])
    = (Raise (TypeError "'>' not supported between these instances"),
       with_ui (ui (demo_world []) ++ events) (demo_world []))
    /\ length events = length [("siteA.com", VInt 85)].
Proof.
  apply (show_similarities_not_a_number (demo_runtime (Response 200 "{}"))
           [("siteA.com", VInt 85)] [] "siteB.org" (VStr "12%")
           (demo_world [])).
  - repeat constructor; discriminate.
  - reflexivity.
  - discriminate.
Defined.

(** ** The Upload tab (lines 95-127) *)

(** With a file in the uploader, every run of the tab writes the uploaded
    bytes to a new temporary file and keeps it, and records the path and
    the file name in the session, whether or not the button is pressed.
    With the names the module defines, a press of the button then ends in
    [NameError] for [call_mcp_tool]: no request is sent and
    [document_text] is not stored. *)
Theorem tab1_upload (pf : Platform) (rt : Runtime) (cfg : config)
    (up : uploaded) (process_button : bool) (fs : files) (w : world) :
  let file_path := temp_path pf fs (snd (splitext pf (up_name up))) in
  let run := snd (tab1 pf rt (module_globals rt cfg) (Some up)
                    process_button fs) w in
  fst (tab1 pf rt (module_globals rt cfg) (Some up) process_button fs)
  = <[file_path := up_value up]> fs
  /\ fst run = (if process_button then Raise (NameError "call_mcp_tool")
                else Ret tt)
  /\ session_state (snd run)
     = Dict.set "file_name" (VStr (up_name up))
         (Dict.set "file_path" (VStr file_path) (session_state w))
  /\ heap (snd run) = heap w /\ log (snd run) = log w
  /\ wire (snd run) = wire w.
Proof.
  intros file_path run. subst run file_path. cbn [tab1 fst snd].
  split; [reflexivity|].
  unfold bind, st_show, session_setitem, with_ui, with_session.
  cbn [fst snd heap session_state log ui wire].
  destruct process_button; [|repeat split].
  assert (Hg : module_globals rt cfg !! "call_mcp_tool" = None)
    by (unfold module_globals; now apply lookup_singleton_ne).
  unfold read_global. rewrite Hg. repeat split.
Qed.

Section Parse.

Context (pf : Platform) (rt : Runtime)
  (globals : gmap string (string -> loc -> M value))
  (f : string -> loc -> M value) (up : uploaded) (fs : files) (w : world).

Hypothesis bound : globals !! "call_mcp_tool" = Some f.

(** The path of the temporary file of this run. *)
Let file_path : string :=
  temp_path pf fs (snd (splitext pf (up_name up))).

(** The world in which the helper is called: the heading shown, the path
    and the name stored, the payload [{"file_path": path}] made. *)
Let at_call : world :=
  mk_world
    (<[fresh (dom (heap w)) := [("file_path", VStr file_path)]]> (heap w))
    (Dict.set "file_name" (VStr (up_name up))
       (Dict.set "file_path" (VStr file_path) (session_state w)))
    (log w) (ui w ++ [StHeader "Upload Assignment"]) (wire w).

Lemma tab1_call (result : outcome value) (w2 : world) :
  f "parse_file" (fresh (dom (heap w))) at_call = (result, w2) ->
  snd (tab1 pf rt globals (Some up) true fs) w
  = match result with
    | Raise e => (Raise e, w2)
    | Ret r =>
        (if is_none r then
           st_show
             (StError "Failed to process document. Check server connection")
         else if is_str r then
           session_setitem "document_text" r ;;;
           st_show (StSuccess "Document processed successfully!") ;;;
           words <- len_of_split_method ;;
           st_show (StInfo ("Document contains " +:+ pretty words
                            +:+ " words."))
         else
           session_setitem "document_text" (VStr (py_str rt r)) ;;;
           st_show (StSuccess "Document processed!") ;;;
           st_join) w2
    end.
Proof.
  intros Hf. cbn [tab1 snd]. fold file_path.
  unfold bind at 1. unfold st_show at 1.
  unfold bind at 1. unfold session_setitem at 1.
  unfold bind at 1. unfold session_setitem at 1.
  unfold bind at 1. unfold read_global. rewrite bound. unfold ret at 1.
  unfold bind at 1. unfold dict_new at 1.
  change (Dict.literal [("file_path", VStr file_path)])
    with [("file_path", VStr file_path)].
  unfold with_heap, with_session, with_ui.
  cbn [heap session_state log ui wire].
  fold at_call. unfold bind at 1. rewrite Hf.
  now destruct result.
Qed.

End Parse.

(** Whatever function [call_mcp_tool] names: when it returns a string for
    [parse_file], the tab stores it as [document_text], shows the success
    message, and then ends in [TypeError] on line 118, where it takes the
    length of the method [result.split]. *)
Theorem tab1_text_result (pf : Platform) (rt : Runtime)
    (globals : gmap string (string -> loc -> M value))
    (f : string -> loc -> M value) (up : uploaded) (fs : files)
    (w w2 : world) (text : string) :
  globals !! "call_mcp_tool" = Some f ->
  f "parse_file" (fresh (dom (heap w)))
    (mk_world
       (<[fresh (dom (heap w))
          := [("file_path",
               VStr (temp_path pf fs (snd (splitext pf (up_name up)))))]]>
          (heap w))
       (Dict.set "file_name" (VStr (up_name up))
          (Dict.set "file_path"
             (VStr (temp_path pf fs (snd (splitext pf (up_name up)))))
             (session_state w)))
       (log w) (ui w ++ [StHeader "Upload Assignment"]) (wire w))
  = (Ret (VStr text), w2) ->
  snd (tab1 pf rt globals (Some up) true fs) w
  = (Raise (TypeError
              "object of type 'builtin_function_or_method' has no len()"),
     mk_world (heap w2)
       (Dict.set "document_text" (VStr text) (session_state w2)) (log w2)
       (ui w2 ++ [StSuccess "Document processed successfully!"]) (wire w2)).
Proof.
  intros Hg Hf. now rewrite (tab1_call pf rt globals f up fs w Hg _ _ Hf).
Qed.

(** Whatever function [call_mcp_tool] names: when it returns a value that
    is neither [None] nor a string (a parsed JSON object, list or number),
    the tab stores its [str] as [document_text], shows the success message,
    and then ends in [AttributeError] on line 127, [st.join]. *)
Theorem tab1_structured_result (pf : Platform) (rt : Runtime)
    (globals : gmap string (string -> loc -> M value))
    (f : string -> loc -> M value) (up : uploaded) (fs : files)
    (w w2 : world) (result : value) :
  globals !! "call_mcp_tool" = Some f ->
  f "parse_file" (fresh (dom (heap w)))
    (mk_world
       (<[fresh (dom (heap w))
          := [("file_path",
               VStr (temp_path pf fs (snd (splitext pf (up_name up)))))]]>
          (heap w))
       (Dict.set "file_name" (VStr (up_name up))
          (Dict.set "file_path"
             (VStr (temp_path pf fs (snd (splitext pf (up_name up)))))
             (session_state w)))
       (log w) (ui w ++ [StHeader "Upload Assignment"]) (wire w))
  = (Ret result, w2) ->
  is_none result = false -> is_str result = false ->
  snd (tab1 pf rt globals (Some up) true fs) w
  = (Raise (AttributeError "module 'streamlit' has no attribute 'join'"),
     mk_world (heap w2)
       (Dict.set "document_text" (VStr (py_str rt result))
          (session_state w2))
       (log w2) (ui w2 ++ [StSuccess "Document processed!"]) (wire w2)).
Proof.
  intros Hg Hf Hn Hs.
  rewrite (tab1_call pf rt globals f up fs w Hg _ _ Hf).
  now rewrite Hn, Hs.
Qed.

(** Whatever function [call_mcp_tool] names: when it returns [None] for
    [parse_file], the tab shows the failure message and returns, and the
    session state is as the call left it: [document_text] is not set. *)
Theorem tab1_failed_parse (pf : Platform) (rt : Runtime)
    (globals : gmap string (string -> loc -> M value))
    (f : string -> loc -> M value) (up : uploaded) (fs : files)
    (w w2 : world) :
  globals !! "call_mcp_tool" = Some f ->
  f "parse_file" (fresh (dom (heap w)))
    (mk_world
       (<[fresh (dom (heap w))
          := [("file_path",
               VStr (temp_path pf fs (snd (splitext pf (up_name up)))))]]>
          (heap w))
       (Dict.set "file_name" (VStr (up_name up))
          (Dict.set "file_path"
             (VStr (temp_path pf fs (snd (splitext pf (up_name up)))))
             (session_state w)))
       (log w) (ui w ++ [StHeader "Upload Assignment"]) (wire w))
  = (Ret VNone, w2) ->
  snd (tab1 pf rt globals (Some up) true fs) w
  = (Ret tt,
     with_ui
       (ui w2
        ++ [StError "Failed to process document. Check server connection"])
       w2).
Proof.
  intros Hg Hf. now rewrite (tab1_call pf rt globals f up fs w Hg _ _ Hf).
Qed.

(** The script runs again on every interaction, and each run with a file
    in the uploader writes one more temporary file: after two runs both
    files are on disk with the uploaded bytes, under different paths, when
    the path picked for a temporary file is never one that exists. *)
Theorem tab1_files_pile_up (pf : Platform) (rt : Runtime)
    (globals : gmap string (string -> loc -> M value)) (up : uploaded)
    (button1 button2 : bool) (fs : files) :
  (forall (fs0 : files) (suffix : string),
      fs0 !! temp_path pf fs0 suffix = None) ->
  let suffix := snd (splitext pf (up_name up)) in
  let fs1 := fst (tab1 pf rt globals (Some up) button1 fs) in
  let fs2 := fst (tab1 pf rt globals (Some up) button2 fs1) in
  temp_path pf fs suffix <> temp_path pf fs1 suffix
  /\ fs2 !! temp_path pf fs suffix = Some (up_value up)
  /\ fs2 !! temp_path pf fs1 suffix = Some (up_value up)
  /\ forall path, is_Some (fs !! path) -> fs2 !! path = fs !! path.
Proof.
  intros Hfresh suffix fs1 fs2. subst fs2 fs1. cbn [tab1 fst]. fold suffix.
  set (p1 := temp_path pf fs suffix).
  set (fs1 := <[p1 := up_value up]> fs).
  set (p2 := temp_path pf fs1 suffix).
  assert (Hne : p1 <> p2).
  { intros E. pose proof (Hfresh fs1 suffix) as H. fold p2 in H.
    rewrite <- E in H. subst fs1. now rewrite lookup_insert_eq in H. }
  split; [exact Hne|]. split; [|split].
  - rewrite lookup_insert_ne by (intros E; now apply Hne).
    subst fs1. apply lookup_insert_eq.
  - apply lookup_insert_eq.
  - intros path [c Hc].
    assert (N1 : path <> p1)
      by (intros ->; subst p1; now rewrite Hfresh in Hc).
    assert (N2 : path <> p2).
    { intros ->. pose proof (Hfresh fs1 suffix) as H. fold p2 in H.
      subst fs1. rewrite lookup_insert_ne in H by congruence. congruence. }
    rewrite lookup_insert_ne by congruence. subst fs1.
    now rewrite lookup_insert_ne by congruence.
Qed.

Lemma tab1_text_result_witness :
  let pf := demo_platform in
  let rt := demo_runtime (Response 200 "Lorem ipsum") in
  let f := request_only rt in
  let w := demo_world [] in
  let w2 :=
    snd (f "parse_file" (fresh (dom (heap w)))
           (mk_world
              (<[fresh (dom (heap w))
                 := [("file_path",
                      VStr (temp_path pf ∅
                              (snd (splitext pf (up_name demo_upload)))))]]>
                 (heap w))
              (Dict.set "file_name" (VStr (up_name demo_upload))
                 (Dict.set "file_path"
                    (VStr (temp_path pf ∅
                             (snd (splitext pf (up_name demo_upload)))))
                    (session_state w)))
              (log w) (ui w ++ [StHeader "Upload Assignment"]) (wire w))) in
  snd (tab1 pf rt {[ "call_mcp_tool" := f ]} (Some demo_upload) true ∅) w
  = (Raise (TypeError
              "object of type 'builtin_function_or_method' has no len()"),
     mk_world (heap w2)
       (Dict.set "document_text" (VStr "Lorem ipsum") (session_state w2))
       (log w2)
       (ui w2 ++ [StSuccess "Document processed successfully!"]) (wire w2)).
Proof.
  apply (tab1_text_result demo_platform
           (demo_runtime (Response 200 "Lorem ipsum"))
           {[ "call_mcp_tool" :=
                request_only (demo_runtime (Response 200 "Lorem ipsum")) ]}
           (request_only (demo_runtime (Response 200 "Lorem ipsum")))
           demo_upload ∅ (demo_world [])).
  - reflexivity.
  - vm_compute. reflexivity.
Defined.

Lemma tab1_structured_result_witness :
  let pf := demo_platform in
  let rt := demo_runtime (Response 200 "{}") in
  let result := VDict [("pages", VInt 2)] in
  let w := demo_world [] in
  let w2 :=
    mk_world
      (<[fresh (dom (heap w))
         := [("file_path",
              VStr (temp_path pf ∅
                      (snd (splitext pf (up_name demo_upload)))))]]>
         (heap w))
      (Dict.set "file_name" (VStr (up_name demo_upload))
         (Dict.set "file_path"
            (VStr (temp_path pf ∅
                     (snd (splitext pf (up_name demo_upload)))))
            (session_state w)))
      (log w) (ui w ++ [StHeader "Upload Assignment"]) (wire w) in
  snd (tab1 pf rt {[ "call_mcp_tool" := returns result ]}
         (Some demo_upload) true ∅) w
  = (Raise (AttributeError "module 'streamlit' has no attribute 'join'"),
     mk_world (heap w2)
       (Dict.set "document_text" (VStr (py_str rt result))
          (session_state w2))
       (log w2) (ui w2 ++ [StSuccess "Document processed!"]) (wire w2)).
Proof.
  apply (tab1_structured_result demo_platform
           (demo_runtime (Response 200 "{}"))
           {[ "call_mcp_tool" := returns (VDict [("pages", VInt 2)]) ]}
           (returns (VDict [("pages", VInt 2)]))
           demo_upload ∅ (demo_world [])); reflexivity.
Defined.

Lemma tab1_failed_parse_witness :
  let pf := demo_platform in
  let rt := demo_runtime (TransportError "Connection refused") in
  let f := request_only rt in
  let w := demo_world [] in
  let w2 :=
    snd (f "parse_file" (fresh (dom (heap w)))
           (mk_world
              (<[fresh (dom (heap w))
                 := [("file_path",
                      VStr (temp_path pf ∅
                              (snd (splitext pf (up_name demo_upload)))))]]>
                 (heap w))
              (Dict.set "file_name" (VStr (up_name demo_upload))
                 (Dict.set "file_path"
                    (VStr (temp_path pf ∅
                             (snd (splitext pf (up_name demo_upload)))))
                    (session_state w)))
              (log w) (ui w ++ [StHeader "Upload Assignment"]) (wire w))) in
  snd (tab1 pf rt {[ "call_mcp_tool" := f ]} (Some demo_upload) true ∅) w
  = (Ret tt,
     with_ui
       (ui w2
        ++ [StError "Failed to process document. Check server connection"])
       w2).
Proof.
  apply (tab1_failed_parse demo_platform
           (demo_runtime (TransportError "Connection refused"))
           {[ "call_mcp_tool" :=
                request_only
                  (demo_runtime (TransportError "Connection refused")) ]}
           (request_only
              (demo_runtime (TransportError "Connection refused")))
           demo_upload ∅ (demo_world [])).
  - reflexivity.
  - vm_compute. reflexivity.
Defined.

Lemma tab1_files_pile_up_witness :
  let pf := demo_platform in
  let rt := demo_runtime (Response 200 "{}") in
  let suffix := snd (splitext pf (up_name demo_upload)) in
  let fs1 := fst (tab1 pf rt ∅ (Some demo_upload) false ∅) in
  let fs2 := fst (tab1 pf rt ∅ (Some demo_upload) true fs1) in
  temp_path pf ∅ suffix <> temp_path pf fs1 suffix
  /\ fs2 !! temp_path pf ∅ suffix = Some (up_value demo_upload)
  /\ fs2 !! temp_path pf fs1 suffix = Some (up_value demo_upload)
  /\ forall path, is_Some ((∅ : files) !! path) ->
                  fs2 !! path = (∅ : files) !! path.
Proof.
  apply (tab1_files_pile_up demo_platform (demo_runtime (Response 200 "{}"))
           ∅ demo_upload false true ∅).
  intros fs0 suffix. apply not_elem_of_dom. apply is_fresh.
Defined.
